(** * blogango/models.py: the blog's data layer

    A shallow embedding of the Django models of [blogango/models.py] and of
    the write and query paths they define: [Blog.save], [BlogEntry.save],
    [BlogEntry.create_slug], [BlogEntry.get_num_comments],
    [BlogEntry.get_recent_comments], [Comment.save], the managers' query
    scopes and the two module-level helpers.

    Modelling conventions.
    - A database table is a finite map from primary key to row
      ([gmap Z row]); a QuerySet is such a map, narrowed with [filter].
    - A Python string is a [string], each character a code point below
      256; a Python [int] is a [Z].
    - A field is [option]-typed exactly when the source declares it
      [null=True] or itself tests it against, or assigns it, [None].
    - A model instance is a mutable Python object: a [save] returns the
      instance as the method leaves it, the table, and how the call ended.
    - [datetime.now()] is an argument of the operation that reads it. *)

From Stdlib Require Import Ascii.
From stdpp Require Import gmap strings list fin_maps pretty sorting.

Local Open Scope Z_scope.

(** ** Python strings: [str.split()] and [str.join] *)

(** Whitespace of [split()] called without a separator, on text: the
    characters [isspace()] accepts. A character of a [string] stands for
    a code point below 256; there these are 9 to 13, 28 to 32, 133 and
    160. *)
Definition isspace (c : ascii) : bool :=
  match c with
  | "009" | "010" | "011" | "012" | "013"
  | "028" | "029" | "030" | "031" | " " | "133" | "160" => true
  | _ => false
  end%char.

Definition push_word (cur : string) (acc : list string) : list string :=
  match cur with
  | "" => acc
  | _ => String.rev cur :: acc
  end.

(** The scanner of [str.split()]: [cur] is the word being read, its
    characters in reverse order. *)
Fixpoint split_go (cur : string) (s : string) : list string :=
  match s with
  | "" => push_word cur []
  | String c s' =>
      if isspace c then push_word cur (split_go "" s')
      else split_go (String c cur) s'
  end.

Definition split (s : string) : list string := split_go "" s.

(** [sep.join(words)] *)
Fixpoint join (sep : string) (words : list string) : string :=
  match words with
  | [] => ""
  | [w] => w
  | w :: ws => w +:+ sep +:+ join sep ws
  end.

(** def _infer_title_or_slug(text): return '-'.join(text.split()[:5]) *)
Definition _infer_title_or_slug (text : string) : string :=
  join "-" (take 5 (split text)).

(** def _generate_summary(text): return ' '.join(text.split()[:100]) *)
Definition _generate_summary (text : string) : string :=
  join " " (take 100 (split text)).

(** Truth value of a value that is [None] or a string:
    [x is None or x == ''], which is also [not x]. *)
Definition blank (x : option string) : bool :=
  match x with
  | None => true
  | Some s => bool_decide (s = "")
  end.

(** ** [datetime] *)

Module datetime.
(** A naive [datetime], as the microseconds elapsed since
    0001-01-01T00:00:00. *)
Definition t := Z.

Definition us_per_day : Z := 86400000000.

(** Proleptic Gregorian ordinal of the date: 1 is 0001-01-01. *)
Definition toordinal (d : t) : Z := d `div` us_per_day + 1.

(** The year of [_ord2ymd] of the standard library's datetime.py. *)
Definition year_of_ordinal (n : Z) : Z :=
  let n := n - 1 in
  let n400 := n `div` 146097 in
  let n := n `mod` 146097 in
  let n100 := n `div` 36524 in
  let n := n `mod` 36524 in
  let n4 := n `div` 1461 in
  let n := n `mod` 1461 in
  let n1 := n `div` 365 in
  let year := n400 * 400 + 1 + n100 * 100 + n4 * 4 + n1 in
  if (n1 =? 4) || (n100 =? 4) then year - 1 else year.

Definition year (d : t) : Z := year_of_ordinal (toordinal d).

(** [datetime.max]: 9999-12-31T23:59:59.999999, ordinal 3652059. *)
Definition max : t := 3652059 * us_per_day - 1.

(** [timedelta(days=n)] *)
Definition timedelta_days (n : Z) : Z := n * us_per_day.

(** The range of representable values. *)
Definition valid (d : t) : Prop := 0 ≤ d ≤ max.
End datetime.

(** ** The storage layer seen from a model *)

Inductive exn : Type :=
| Exception (msg : string)
| AttributeError
| IntegrityError.

Inductive outcome : Type :=
| Saved
| Raised (e : exn).

Global Instance exn_eq_dec : EqDecision exn.
Proof. solve_decision. Defined.
Global Instance outcome_eq_dec : EqDecision outcome.
Proof. solve_decision. Defined.

(** Truth value of [self.id]: [None] and [0] are false. *)
Definition truthy_pk (pk : option Z) : bool :=
match pk with
| Some k => negb (k =? 0)
| None => false
end.

(** The key an INSERT without a primary key receives: one above the
  largest key of the table. *)
Definition fresh_pk {A} (tbl : gmap Z A) : Z :=
1 + foldr Z.max 0 (map_to_list tbl).*1.

(** [models.Model.save]: with a primary key the row of that key is
  updated, or inserted when there is none; without one the row is
  inserted under a fresh key, which the instance receives. *)
Definition Model_save {A} (set_id : option Z → A → A)
  (pk : option Z) (self : A) (tbl : gmap Z A) : A * gmap Z A :=
let k := from_option id (fresh_pk tbl) pk in
let self := set_id (Some k) self in
(self, <[k := self]> tbl).

(** QuerySet operations. *)
Definition exclude_pk {A} (pk : option Z) (qs : gmap Z A) : gmap Z A :=
filter (λ kv, Some kv.1 ≠ pk) qs.

Definition count {A} (qs : gmap Z A) : Z := Z.of_nat (size qs).

(** Truth value of a QuerySet, and [.exists()]. *)
Definition nonempty {A} (qs : gmap Z A) : bool := negb (bool_decide (size qs = 0%nat)).

(** ** Blog *)

Module Blog.
Record t : Type := mk {
  id : option Z;
  title : string;
  tag_line : string;
  entries_per_page : Z;
  recents : Z;
  recent_comments : Z
}.

Definition set_id (pk : option Z) (self : t) : t :=
  mk pk (title self) (tag_line self) (entries_per_page self)
     (recents self) (recent_comments self).

(** [Blog.save] (lines 34-40): raise when [Blog.objects.count() == 1 and
    not self.id], otherwise call the inherited [save]. *)
Definition save (self : t) (tbl : gmap Z t) : t * gmap Z t * outcome :=
  if (count tbl =? 1) && negb (truthy_pk (id self))
  then (self, tbl, Raised (Exception "Only one blog object allowed."))
  else
    let '(self, tbl) := Model_save set_id (id self) self tbl in
    (self, tbl, Saved).

(** [BlogManager.get_blog] (lines 14-18): [blogs = self.all()], then
    [blogs[0]] if [blogs] holds a row and [None] otherwise. [Blog] declares
    no ordering: the first row is the first row of the enumeration of the
    table. *)
Definition get_blog (tbl : gmap Z t) : option t :=
  head (map_to_list tbl).*2.
End Blog.

(** ** Comment *)

Module Comment.
(** [created_on] is [auto_now_add]: the inherited [save] sets it when the
    row is inserted, and what an instance holds before that is not read. *)
Record t : Type := mk {
  id : option Z;
  text : string;
  comment_for : Z;
  created_on : datetime.t;
  user_name : string;
  user_url : string;
  created_by : option Z;
  email_id : string;
  is_spam : bool;
  is_public : option bool;
  user_ip : option string;
  user_agent : string
}.

Definition set_id (pk : option Z) (self : t) : t :=
  mk pk (text self) (comment_for self) (created_on self) (user_name self)
     (user_url self) (created_by self) (email_id self) (is_spam self)
     (is_public self) (user_ip self) (user_agent self).

Definition set_created_on (d : datetime.t) (self : t) : t :=
  mk (id self) (text self) (comment_for self) d (user_name self)
     (user_url self) (created_by self) (email_id self) (is_spam self)
     (is_public self) (user_ip self) (user_agent self).

Definition set_is_public (p : option bool) (self : t) : t :=
  mk (id self) (text self) (comment_for self) (created_on self)
     (user_name self) (user_url self) (created_by self) (email_id self)
     (is_spam self) p (user_ip self) (user_agent self).

(** [default = models.Manager()]: every row. *)
Definition default (tbl : gmap Z t) : gmap Z t := tbl.

(** [objects = CommentManager()], whose [get_queryset] is
    [filter(is_public=True)]. *)
Definition objects (tbl : gmap Z t) : gmap Z t :=
  filter (λ kv, is_public kv.2 = Some true) tbl.

(** The inherited [save]: [created_on] is [auto_now_add], it receives the
    current time when the row is inserted. *)
Definition Model_save (now : datetime.t) (self : t) (tbl : gmap Z t)
    : t * gmap Z t :=
  let add :=
    match id self with
    | Some k => bool_decide (tbl !! k = None)
    | None => true
    end in
  let self := if add then set_created_on now self else self in
  Model_save set_id (id self) self tbl.

(** [Comment.save] (lines 185-188): [if self.is_spam: self.is_public =
    False], then the inherited [save]. *)
Definition save (now : datetime.t) (self : t) (tbl : gmap Z t)
    : t * gmap Z t * outcome :=
  let self := if is_spam self then set_is_public (Some false) self else self in
  let '(self, tbl) := Model_save now self tbl in
  (self, tbl, Saved).

(** [ordering = ['-created_on']] as asked by [order_by('-created_on')]. *)
Definition newest_first (a b : t) : Prop := created_on b ≤ created_on a.

(** [ordering = ['created_on']], the order of [BaseComment.Meta]. *)
Definition oldest_first (a b : t) : Prop := created_on a ≤ created_on b.

Global Instance newest_first_dec : RelDecision newest_first.
Proof. intros a b. unfold newest_first. apply _. Defined.
Global Instance oldest_first_dec : RelDecision oldest_first.
Proof. intros a b. unfold oldest_first. apply _. Defined.
End Comment.

(** ** Reaction *)

Module Reaction.
(** The primary key is [reaction_id], the identifier the reaction has at
    its source: a table of reactions is keyed by it. *)
Record t : Type := mk {
  reaction_id : string;
  text : string;
  comment_for : Z;
  created_on : datetime.t;
  user_name : string;
  user_url : string;
  source : string;
  profile_image : option string
}.
End Reaction.

(** ** BlogEntry *)

Module BlogEntry.
(** The value of a [MarkupField]: the raw text and its markup type. *)
Record MarkupText : Type := mk_text {
  raw : string;
  markup_type : string
}.

Record t : Type := mk {
  id : option Z;
  title : option string;
  slug : option string;
  text : MarkupText;
  summary : option string;
  created_on : option datetime.t;
  created_by : Z;
  is_page : bool;
  is_published : bool;
  publish_date : option datetime.t;
  comments_allowed : bool;
  is_rte : bool;
  meta_keywords : option string;
  meta_description : option string
}.

Definition set_id (pk : option Z) (self : t) : t :=
  mk pk (title self) (slug self) (text self) (summary self)
     (created_on self) (created_by self) (is_page self) (is_published self)
     (publish_date self) (comments_allowed self) (is_rte self)
     (meta_keywords self) (meta_description self).

Definition set_title (x : option string) (self : t) : t :=
  mk (id self) x (slug self) (text self) (summary self)
     (created_on self) (created_by self) (is_page self) (is_published self)
     (publish_date self) (comments_allowed self) (is_rte self)
     (meta_keywords self) (meta_description self).

Definition set_slug (x : option string) (self : t) : t :=
  mk (id self) (title self) x (text self) (summary self)
     (created_on self) (created_by self) (is_page self) (is_published self)
     (publish_date self) (comments_allowed self) (is_rte self)
     (meta_keywords self) (meta_description self).

Definition set_summary (x : option string) (self : t) : t :=
  mk (id self) (title self) (slug self) (text self) x
     (created_on self) (created_by self) (is_page self) (is_published self)
     (publish_date self) (comments_allowed self) (is_rte self)
     (meta_keywords self) (meta_description self).

Definition set_created_on (x : option datetime.t) (self : t) : t :=
  mk (id self) (title self) (slug self) (text self) (summary self)
     x (created_by self) (is_page self) (is_published self)
     (publish_date self) (comments_allowed self) (is_rte self)
     (meta_keywords self) (meta_description self).

Definition set_publish_date (x : option datetime.t) (self : t) : t :=
  mk (id self) (title self) (slug self) (text self) (summary self)
     (created_on self) (created_by self) (is_page self) (is_published self)
     x (comments_allowed self) (is_rte self)
     (meta_keywords self) (meta_description self).

Definition set_meta_keywords (x : option string) (self : t) : t :=
  mk (id self) (title self) (slug self) (text self) (summary self)
     (created_on self) (created_by self) (is_page self) (is_published self)
     (publish_date self) (comments_allowed self) (is_rte self)
     x (meta_description self).

Definition set_meta_description (x : option string) (self : t) : t :=
  mk (id self) (title self) (slug self) (text self) (summary self)
     (created_on self) (created_by self) (is_page self) (is_published self)
     (publish_date self) (comments_allowed self) (is_rte self)
     (meta_keywords self) x.

(** The rows [BlogPublishedManager.get_queryset] keeps:
    [filter(is_published=True, publish_date__lte=datetime.now())]. A null
    [publish_date] satisfies no comparison. *)
Definition in_published_scope (now : datetime.t) (e : t) : bool :=
  is_published e &&
  match publish_date e with
  | Some d => d <=? now
  | None => false
  end.

(** [default = models.Manager()] *)
Definition default (tbl : gmap Z t) : gmap Z t := tbl.

(** [objects = BlogPublishedManager()] *)
Definition objects (now : datetime.t) (tbl : gmap Z t) : gmap Z t :=
  filter (λ kv, in_published_scope now kv.2 = true) tbl.

(** [create_slug] (lines 115-118): [if not i == 1: initial_slug += "-%s" %
    (i,)]. *)
Definition create_slug (initial_slug : string) (i : Z) : string :=
  if negb (i =? 1) then initial_slug +:+ "-" +:+ pretty i else initial_slug.

(** [BlogEntry.objects.filter(slug__exact=created_slug).exclude(pk=self.pk)] *)
Definition slug_count (now : datetime.t) (tbl : gmap Z t) (pk : option Z)
    (created_slug : string) : gmap Z t :=
  exclude_pk pk (filter (λ kv, slug kv.2 = Some created_slug) (objects now tbl)).

(** The loop of lines 92-98, from the counter [i]; [None] when [fuel]
    iterations did not reach the [break]. *)
Fixpoint probe (fuel : nat) (now : datetime.t) (tbl : gmap Z t)
    (pk : option Z) (base : string) (i : Z) : option string :=
  match fuel with
  | O => None
  | S fuel =>
      let created_slug := create_slug base i in
      if nonempty (slug_count now tbl pk created_slug)
      then probe fuel now tbl pk base (i + 1)
      else Some created_slug
  end.

(** The columns declared without [null=True] among those a [save] can
    hand over as [None]. *)
Definition not_null (self : t) : bool :=
  bool_decide (is_Some (title self)) && bool_decide (is_Some (slug self)) &&
  bool_decide (is_Some (summary self)) && bool_decide (is_Some (created_on self)).

(** The inherited [save]; the storage engine refuses a null in a column
    that is not nullable. *)
Definition Model_save (self : t) (tbl : gmap Z t) : t * gmap Z t * outcome :=
  if not_null self
  then let '(self, tbl) := Model_save set_id (id self) self tbl in
       (self, tbl, Saved)
  else (self, tbl, Raised IntegrityError).

Section save.
(** [django.template.defaultfilters.slugify] *)
Variable slugify : string → string.

(** Lines 86-90 of [BlogEntry.save]: title inference and slug derivation. *)
Definition infer_title_and_slug (self : t) : t :=
  let self :=
    if blank (title self)
    then set_title (Some (_infer_title_or_slug (raw (text self)))) self
    else self in
  if blank (slug self)
  then set_slug (Some (slugify (from_option (λ s, s) "" (title self)))) self
  else self.

(** Lines 101-106: summary and meta fields. *)
Definition default_summary_and_meta (self : t) : t :=
  let self :=
    if blank (summary self)
    then set_summary (Some (_generate_summary (raw (text self)))) self
    else self in
  let self :=
    if blank (meta_keywords self)
    then set_meta_keywords (summary self) self
    else self in
  if blank (meta_description self)
  then set_meta_description (summary self) self
  else self.

(** Lines 108-111: [if self.is_published: if self.created_on.year == 9999:
    self.created_on = self.publish_date]. Reading [.year] of [None] raises. *)
Definition publish_fixup (self : t) : t * option exn :=
  if is_published self then
    match created_on self with
    | None => (self, Some AttributeError)
    | Some d =>
        if datetime.year d =? 9999
        then (set_created_on (publish_date self) self, None)
        else (self, None)
    end
  else (self, None).

(** Lines 86-111 of [BlogEntry.save], up to the call of the inherited
    [save]: the instance as those lines leave it and the exception they
    raise, if any. *)
Definition derive_fields (fuel : nat) (now : datetime.t) (self : t)
    (tbl : gmap Z t) : option (t * option exn) :=
  let self := infer_title_and_slug self in
  created_slug ← probe fuel now tbl (id self) (from_option (λ s, s) "" (slug self)) 1;
  let self := set_slug (Some created_slug) self in
  let self := default_summary_and_meta self in
  Some (publish_fixup self).

Definition save_fuel (fuel : nat) (now : datetime.t) (self : t)
    (tbl : gmap Z t) : option (t * gmap Z t * outcome) :=
  '(self, raised) ← derive_fields fuel now self tbl;
  match raised with
  | Some e => Some (self, tbl, Raised e)
  | None => Some (Model_save self tbl)
  end.

(** [BlogEntry.save] (lines 85-113). The loop runs at most once per row of
    the published scope, and once more. Each turn of the loop builds its
    QuerySet anew and reads [datetime.now()] again; one reading, [now],
    stands for all of them. *)
Definition save (now : datetime.t) (self : t) (tbl : gmap Z t)
    : option (t * gmap Z t * outcome) :=
  save_fuel (S (size (objects now tbl))) now self tbl.
End save.

(** [get_num_comments] (lines 129-131):
    [Comment.objects.filter(comment_for=self, is_spam=False).count()] *)
Definition get_num_comments (self : t) (comments : gmap Z Comment.t) : Z :=
  count (filter (λ kv, Some (Comment.comment_for kv.2) = id self
                       ∧ Comment.is_spam kv.2 = false)
                (Comment.objects comments)).

(** The filter shared by [has_recent_comments] and [get_recent_comments]:
    [Comment.objects.filter(comment_for=self, is_spam=False,
    created_on__gt=yesterday)] with [yesterday = datetime.now() -
    timedelta(days=1)]. *)
Definition recent_comments_qs (now : datetime.t) (self : t)
    (comments : gmap Z Comment.t) : gmap Z Comment.t :=
  let yesterday := now - datetime.timedelta_days 1 in
  filter (λ kv, Some (Comment.comment_for kv.2) = id self
                ∧ Comment.is_spam kv.2 = false
                ∧ yesterday < Comment.created_on kv.2)
         (Comment.objects comments).

(** [has_recent_comments] (lines 138-142) *)
Definition has_recent_comments (now : datetime.t) (self : t)
    (comments : gmap Z Comment.t) : bool :=
  nonempty (recent_comments_qs now self comments).

(** [get_recent_comments] (lines 145-150): the same rows,
    [.order_by('-created_on')]. *)
Definition get_recent_comments (now : datetime.t) (self : t)
    (comments : gmap Z Comment.t) : list Comment.t :=
  merge_sort Comment.newest_first
    (map_to_list (recent_comments_qs now self comments)).*2.

(** [get_num_reactions] (lines 133-135):
    [Reaction.objects.filter(comment_for=self).count()], on the plain
    manager a model without one of its own receives. *)
Definition get_num_reactions (self : t) (reactions : gmap string Reaction.t)
    : Z :=
  Z.of_nat (size (filter (λ kv, Some (Reaction.comment_for kv.2) = id self)
                         reactions)).
End BlogEntry.


(** * Statements of the specification, and concrete states *)

(** ** Whitespace-separated tokens, in words *)

Fixpoint all_chars (P : ascii → bool) (s : string) : bool :=
  match s with
  | "" => true
  | String c s' => P c && all_chars P s'
  end.

(** A run of whitespace, possibly empty. *)
Definition is_gap (g : string) : Prop := all_chars isspace g = true.

(** A token: a non-empty run of characters that are not whitespace. *)
Definition is_word (w : string) : Prop :=
  w ≠ "" ∧ all_chars (λ c, negb (isspace c)) w = true.

(** What may follow a token: the end of the text, or whitespace. *)
Definition ends_word (rest : string) : Prop :=
  match rest with
  | "" => True
  | String c _ => isspace c = true
  end.

(** [tokens s ws]: [ws] are the whitespace-separated tokens of [s], in
    order. *)
Inductive tokens : string → list string → Prop :=
  | tokens_nil g : is_gap g → tokens g []
  | tokens_cons g w rest ws :
      is_gap g → is_word w → ends_word rest → tokens rest ws →
      tokens (g +:+ w +:+ rest) (w :: ws).

(** ** Comments, as the specification words the two helpers *)

(** "Comment count for an entry: count of non-spam comments attached to
    it." *)
Definition nonspam_comment_count (self : BlogEntry.t)
    (comments : gmap Z Comment.t) : Z :=
  count (filter (λ kv, Some (Comment.comment_for kv.2) = BlogEntry.id self
                       ∧ Comment.is_spam kv.2 = false) comments).

(** "Recent-comment listing: non-spam comments on the entry created within
    the last 24 hours, ordered oldest-first." *)
Definition recent_nonspam_oldest_first (now : datetime.t) (self : BlogEntry.t)
    (comments : gmap Z Comment.t) : list Comment.t :=
  merge_sort Comment.oldest_first
    (map_to_list
       (filter (λ kv, Some (Comment.comment_for kv.2) = BlogEntry.id self
                      ∧ Comment.is_spam kv.2 = false
                      ∧ now - datetime.timedelta_days 1 < Comment.created_on kv.2)
               comments)).*2.

(** What [get_num_comments] counts and [get_recent_comments] lists. *)
Definition public_nonspam_for (self : BlogEntry.t) (kv : Z * Comment.t) : Prop :=
  Some (Comment.comment_for kv.2) = BlogEntry.id self
  ∧ Comment.is_public kv.2 = Some true
  ∧ Comment.is_spam kv.2 = false.

Definition public_nonspam_recent_for (now : datetime.t) (self : BlogEntry.t)
    (kv : Z * Comment.t) : Prop :=
  public_nonspam_for self kv
  ∧ now - datetime.timedelta_days 1 < Comment.created_on kv.2.

Global Instance public_nonspam_for_dec self kv :
  Decision (public_nonspam_for self kv).
Proof. unfold public_nonspam_for. apply _. Defined.
Global Instance public_nonspam_recent_for_dec now self kv :
  Decision (public_nonspam_recent_for now self kv).
Proof. unfold public_nonspam_recent_for. apply _. Defined.

(** ** Concrete states *)

Module Sample.
(** Times, in microseconds: 2024-01-01T00:00:00 is day 738886. *)
Definition jan1 : datetime.t := 738885 * datetime.us_per_day.
Definition hour : Z := 3600000000.

(** Blog tables reached by saving. *)
Definition first_blog : Blog.t := Blog.mk None "Notes" "from the field" 10 5 5.
Definition second_blog : Blog.t := Blog.mk None "More notes" "again" 10 5 5.
Definition blogs_one : gmap Z Blog.t := (Blog.save first_blog ∅).1.2.
Definition stored_blog : Blog.t := (Blog.save first_blog ∅).1.1.
Definition blogs_two : gmap Z Blog.t :=
  (Blog.save (Blog.set_id (Some 2) second_blog) blogs_one).1.2.

(** An entry with identity 7, as far as the comment helpers read it. *)
Definition entry7 : BlogEntry.t :=
  BlogEntry.mk (Some 7) (Some "Hello World") (Some "hello-world")
    (BlogEntry.mk_text "Hello World" "plain") (Some "Hello World")
    (Some jan1) 1 false true (Some jan1) true false
    (Some "Hello World") (Some "Hello World").

Definition new_comment (body : string) (spam : bool) (public : option bool)
    : Comment.t :=
  Comment.mk None body 7 0 "ann" "http://example.org/ann" None
    "ann@example.org" spam public None "".

(** A comment flagged as spam that the caller marked public. *)
Definition spam_comment : Comment.t := new_comment "buy now" true (Some true).

(** A comment submitted with the field defaults: not spam, [is_public]
    unset. *)
Definition pending_comment : Comment.t := new_comment "first" false None.
Definition comments_pending : gmap Z Comment.t :=
  (Comment.save (jan1 + hour) pending_comment ∅).1.2.

(** Two public comments, one and two hours after [jan1]. *)
Definition comments_two_public : gmap Z Comment.t :=
  (Comment.save (jan1 + 2 * hour) (new_comment "later" false (Some true))
     (Comment.save (jan1 + hour) (new_comment "earlier" false (Some true)) ∅).1.2).1.2.

(** The same two, and a third left pending an hour later. *)
Definition comments_three : gmap Z Comment.t :=
  (Comment.save (jan1 + 3 * hour) (new_comment "pending" false None)
     comments_two_public).1.2.

(** Modelled from the spec: [django.template.defaultfilters.slugify] is
    not part of the repository; section 4.1 describes it as "lowercase,
    non-alphanumeric runs collapsed to a single hyphen". The theorems hold
    for every slugify function; this one instantiates them. *)
Definition is_alnum (c : ascii) : bool :=
  let n := N_of_ascii c in
  ((48 <=? n) && (n <=? 57) || (65 <=? n) && (n <=? 90)
   || (97 <=? n) && (n <=? 122))%N.

Definition lower (c : ascii) : ascii :=
  let n := N_of_ascii c in
  if ((65 <=? n) && (n <=? 90))%N then ascii_of_N (n + 32) else c.

Fixpoint slugify_go (in_run : bool) (s : string) : string :=
  match s with
  | "" => ""
  | String c s' =>
      if is_alnum c then String (lower c) (slugify_go false s')
      else if in_run then slugify_go true s'
           else String "-" (slugify_go true s')
  end.

Definition slugify (s : string) : string := slugify_go false s.

(** 9999-01-01T00:00:00 (day 3651695) and 9999-06-01T00:00:00. *)
Definition y9999_jan1 : datetime.t := 3651694 * datetime.us_per_day.
Definition y9999_jun1 : datetime.t := 3651845 * datetime.us_per_day.

Definition hello : BlogEntry.MarkupText :=
  BlogEntry.mk_text "Hello World again" "plain".

(** A new entry titled "Hello World" with the slug "hello-world": no
    identity yet, [created_on] at its default [datetime.max]. *)
Definition new_entry (published : bool) (publish_date : option datetime.t)
    : BlogEntry.t :=
  BlogEntry.mk None (Some "Hello World") (Some "hello-world") hello None
    (Some datetime.max) 1 false published publish_date true false None None.

(** The row a save of [new_entry] stores under the key [pk]. *)
Definition stored_entry (pk : Z) (slug : string) (created_on : datetime.t)
    (published : bool) (publish_date : option datetime.t) : BlogEntry.t :=
  BlogEntry.mk (Some pk) (Some "Hello World") (Some slug) hello
    (Some "Hello World again") (Some created_on) 1 false published
    publish_date true false
    (Some "Hello World again") (Some "Hello World again").

(** An unpublished draft, and a post published on [jan1]. *)
Definition draft : BlogEntry.t := new_entry false None.
Definition post : BlogEntry.t := new_entry true (Some jan1).
Definition stored_draft : BlogEntry.t :=
  stored_entry 1 "hello-world" datetime.max false None.
Definition stored_post : BlogEntry.t :=
  stored_entry 2 "hello-world" jan1 true (Some jan1).
Definition entries_draft : gmap Z BlogEntry.t := {[ 1 := stored_draft ]}.
Definition entries_both : gmap Z BlogEntry.t := <[ 2 := stored_post ]> entries_draft.

(** A post whose publication date lies in the year 9999. *)
Definition post9999 : BlogEntry.t := new_entry true (Some y9999_jan1).
Definition stored_post9999 : BlogEntry.t :=
  stored_entry 1 "hello-world" y9999_jan1 true (Some y9999_jan1).

(** The example of the specification: no title, seven words of text. *)
Definition untitled : BlogEntry.t :=
  BlogEntry.mk None (Some "") None
    (BlogEntry.mk_text "one two three four five six seven" "plain") None
    (Some datetime.max) 1 false true (Some jan1) true false None None.

(** A published entry without a publication date. *)
Definition undated : BlogEntry.t := new_entry true None.
End Sample.

(** ** Entries: the collision check and the starting slug, in words *)

(** A row other than [pk], inside the published scope at [now], carries
    the slug [c]. *)
Definition slug_in_use (now : datetime.t) (tbl : gmap Z BlogEntry.t)
    (pk : option Z) (c : string) : Prop :=
  ∃ k e, tbl !! k = Some e ∧ Some k ≠ pk
         ∧ BlogEntry.in_published_scope now e = true
         ∧ BlogEntry.slug e = Some c.

(** No two rows of the published scope at [now] share a slug. *)
Definition scope_slugs_distinct (now : datetime.t) (tbl : gmap Z BlogEntry.t)
    : Prop :=
  ∀ k1 k2 e1 e2,
    tbl !! k1 = Some e1 → tbl !! k2 = Some e2 →
    BlogEntry.in_published_scope now e1 = true →
    BlogEntry.in_published_scope now e2 = true →
    BlogEntry.slug e1 = BlogEntry.slug e2 → k1 = k2.

(** The title an entry is saved under: the supplied one, or the one
    inferred from the raw text when it is blank. *)
Definition title_or_inferred (self : BlogEntry.t) : string :=
  match BlogEntry.title self with
  | Some s => if bool_decide (s = "") then
                _infer_title_or_slug (BlogEntry.raw (BlogEntry.text self))
              else s
  | None => _infer_title_or_slug (BlogEntry.raw (BlogEntry.text self))
  end.

(** "the derived (or supplied) slug": the supplied slug, or the slugified
    title when it is blank. *)
Definition starting_slug (slugify : string → string) (self : BlogEntry.t)
    : string :=
  match BlogEntry.slug self with
  | Some s => if bool_decide (s = "") then slugify (title_or_inferred self)
              else s
  | None => slugify (title_or_inferred self)
  end.

(** The value [created_on] has once lines 108-111 have run. *)
Definition created_on_after (self : BlogEntry.t) : option datetime.t :=
  if BlogEntry.is_published self then
    match BlogEntry.created_on self with
    | Some d => if datetime.year d =? 9999 then BlogEntry.publish_date self
                else Some d
    | None => None
    end
  else BlogEntry.created_on self.

(** How [BlogEntry.save] ends: reading [.year] of a null [created_on]
    raises; a [created_on] that is null after lines 108-111 is refused by
    the storage engine. *)
Definition save_outcome (self : BlogEntry.t) : outcome :=
  if BlogEntry.is_published self && bool_decide (BlogEntry.created_on self = None)
  then Raised AttributeError
  else if bool_decide (created_on_after self = None)
       then Raised IntegrityError
       else Saved.

(** ** Entries: every field after a save, in words *)

(** The summary an entry is saved with: the supplied one, or the one
    generated from the raw text when it is blank. *)
Definition summary_or_generated (self : BlogEntry.t) : string :=
  match BlogEntry.summary self with
  | Some s => if bool_decide (s = "") then
                _generate_summary (BlogEntry.raw (BlogEntry.text self))
              else s
  | None => _generate_summary (BlogEntry.raw (BlogEntry.text self))
  end.

(** A meta field after a save: the supplied value, or the summary the
    entry is saved with when it is blank. *)
Definition meta_or_summary (self : BlogEntry.t) (m : option string)
    : option string :=
  if blank m then Some (summary_or_generated self) else m.

(** [self'] carries the slug [c] and, in every other field but [id], what
    lines 86-111 of [save] derive from [self]. *)
Definition derived_from (self : BlogEntry.t) (c : string)
    (self' : BlogEntry.t) : Prop :=
  BlogEntry.title self' = Some (title_or_inferred self)
  ∧ BlogEntry.slug self' = Some c
  ∧ BlogEntry.text self' = BlogEntry.text self
  ∧ BlogEntry.summary self' = Some (summary_or_generated self)
  ∧ BlogEntry.created_on self' = created_on_after self
  ∧ BlogEntry.created_by self' = BlogEntry.created_by self
  ∧ BlogEntry.is_page self' = BlogEntry.is_page self
  ∧ BlogEntry.is_published self' = BlogEntry.is_published self
  ∧ BlogEntry.publish_date self' = BlogEntry.publish_date self
  ∧ BlogEntry.comments_allowed self' = BlogEntry.comments_allowed self
  ∧ BlogEntry.is_rte self' = BlogEntry.is_rte self
  ∧ BlogEntry.meta_keywords self'
    = meta_or_summary self (BlogEntry.meta_keywords self)
  ∧ BlogEntry.meta_description self'
    = meta_or_summary self (BlogEntry.meta_description self).

(** ** Further concrete states *)

Module Cases.
(** A blog record carrying the identity 5. *)
Definition blog5 : Blog.t := Blog.set_id (Some 5) Sample.second_blog.

(** A blog record carrying the identity 0. *)
Definition blog0 : Blog.t := Blog.set_id (Some 0) Sample.first_blog.

(** The first of the two public comments as it is stored, and a copy of a
    comment with the spam flag raised. *)
Definition stored_earlier : Comment.t :=
  Comment.set_id (Some 1)
    (Comment.set_created_on (Sample.jan1 + Sample.hour)
       (Sample.new_comment "earlier" false (Some true))).

Definition flag_spam (c : Comment.t) : Comment.t :=
  Comment.mk (Comment.id c) (Comment.text c) (Comment.comment_for c)
    (Comment.created_on c) (Comment.user_name c) (Comment.user_url c)
    (Comment.created_by c) (Comment.email_id c) true (Comment.is_public c)
    (Comment.user_ip c) (Comment.user_agent c).

(** A reaction to the entry 7. *)
Definition reaction : Reaction.t :=
  Reaction.mk "tw-1001" "nice post" 7 (Sample.jan1 + Sample.hour) "bob"
    "http://example.org/bob" "twitter" None.

(** A published entry whose [created_on] was set to [None]. *)
Definition unset_created_on : BlogEntry.t :=
  BlogEntry.set_created_on None Sample.post.

End Cases.

(** * Properties *)

(** ** The storage layer *)

Lemma foldr_max_ge (l : list Z) (k : Z) : k ∈ l → k ≤ foldr Z.max 0 l.
Proof.
  induction l as [|x l IH]; simpl.
  - by intros ?%elem_of_nil.
  - intros [->|Hk]%elem_of_cons; [lia|]. specialize (IH Hk). lia.
Qed.

Lemma foldr_max_nonneg (l : list Z) : 0 ≤ foldr Z.max 0 l.
Proof. induction l; simpl; lia. Qed.

Lemma fresh_pk_above {A} (tbl : gmap Z A) (k : Z) :
  is_Some (tbl !! k) → k < fresh_pk tbl.
Proof.
  intros [a Ha]. unfold fresh_pk.
  apply elem_of_map_to_list in Ha.
  assert (k ∈ (map_to_list tbl).*1) as Hk.
  { apply list_elem_of_fmap. by exists (k, a). }
  apply foldr_max_ge in Hk. lia.
Qed.

Lemma fresh_pk_lookup {A} (tbl : gmap Z A) : tbl !! fresh_pk tbl = None.
Proof.
  destruct (tbl !! fresh_pk tbl) as [a|] eqn:E; [|done].
  assert (fresh_pk tbl < fresh_pk tbl); [|lia].
  apply fresh_pk_above. by exists a.
Qed.

Lemma fresh_pk_pos {A} (tbl : gmap Z A) : 1 ≤ fresh_pk tbl.
Proof. unfold fresh_pk. pose proof (foldr_max_nonneg (map_to_list tbl).*1). lia. Qed.

Lemma nonempty_true {A} (qs : gmap Z A) :
  nonempty qs = true ↔ ∃ k a, qs !! k = Some a.
Proof.
  unfold nonempty. rewrite negb_true_iff, bool_decide_eq_false.
  rewrite map_size_non_empty_iff. split.
  - apply map_choose.
  - intros (k & a & Hk) ->. by rewrite lookup_empty in Hk.
Qed.

Lemma nonempty_false {A} (qs : gmap Z A) :
  nonempty qs = false ↔ ∀ k, qs !! k = None.
Proof.
  unfold nonempty. rewrite negb_false_iff, bool_decide_eq_true.
  rewrite map_size_empty_iff. apply map_empty.
Qed.

(** ** [str.split()] returns the whitespace-separated tokens *)

Lemma string_app_nil_r (s : string) : s +:+ "" = s.
Proof. induction s as [|c s IH]; [done|]. cbv [String.append]. fold String.append. by rewrite IH. Qed.

Lemma string_app_cons (c : ascii) (s1 s2 : string) :
  String c s1 +:+ s2 = String c (s1 +:+ s2).
Proof. done. Qed.

Lemma string_app_nil_l (s : string) : "" +:+ s = s.
Proof. done. Qed.

Lemma rev_app_rev_app (a b c : string) :
  String.rev_app (String.rev_app a b) c = String.rev_app b (a +:+ c).
Proof.
  revert b c. induction a as [|x a IH]; intros b c; simpl; [done|].
  by rewrite IH.
Qed.

Lemma rev_app_ne (a b : string) : b ≠ "" → String.rev_app a b ≠ "".
Proof. revert b. induction a as [|x a IH]; intros b Hb; simpl; [done|]. by apply IH. Qed.

Lemma rev_rev_app (w : string) : String.rev (String.rev_app w "") = w.
Proof.
  unfold String.rev. rewrite rev_app_rev_app. apply string_app_nil_r.
Qed.

Lemma is_gap_cons (c : ascii) (g : string) :
  is_gap (String c g) ↔ isspace c = true ∧ is_gap g.
Proof. unfold is_gap. simpl. by rewrite andb_true_iff. Qed.

Lemma is_gap_ends_word (g : string) : is_gap g → ends_word g.
Proof. destruct g as [|c g]; [done|]. by intros [? _]%is_gap_cons. Qed.

Lemma split_go_gap (g s : string) :
  is_gap g → split_go "" (g +:+ s) = split_go "" s.
Proof.
  induction g as [|c g IH]; [done|].
  intros [Hc Hg]%is_gap_cons. rewrite string_app_cons. simpl.
  rewrite Hc. simpl. by apply IH.
Qed.

Lemma split_go_word (w cur s : string) :
  all_chars (λ c, negb (isspace c)) w = true →
  split_go cur (w +:+ s) = split_go (String.rev_app w cur) s.
Proof.
  revert cur. induction w as [|c w IH]; intros cur Hall; [done|].
  simpl in Hall. apply andb_true_iff in Hall as [Hc Hw].
  apply negb_true_iff in Hc.
  rewrite string_app_cons. simpl. rewrite Hc. by apply IH.
Qed.

Lemma split_go_end (cur rest : string) :
  cur ≠ "" → ends_word rest →
  split_go cur rest = String.rev cur :: split_go "" rest.
Proof.
  intros Hcur Hrest. destruct rest as [|c rest]; simpl in *.
  - by destruct cur.
  - rewrite Hrest. by destruct cur.
Qed.

Lemma split_gap (g : string) : is_gap g → split g = [].
Proof.
  intros Hg. unfold split. rewrite <-(string_app_nil_r g).
  by rewrite split_go_gap.
Qed.

Lemma split_word (g w rest : string) :
  is_gap g → is_word w → ends_word rest →
  split (g +:+ w +:+ rest) = w :: split rest.
Proof.
  intros Hg [Hne Hw] Hrest. unfold split.
  rewrite split_go_gap, split_go_word by done.
  rewrite split_go_end, rev_rev_app; [done| |done].
  destruct w as [|c w]; [done|]. simpl. by apply rev_app_ne.
Qed.

(** A text has at most one list of tokens: the one [split] computes. *)
Lemma tokens_unique (s : string) (ws : list string) :
  tokens s ws → ws = split s.
Proof.
  induction 1 as [g Hg|g w rest ws Hg Hw Hrest _ IH].
  - by rewrite split_gap.
  - rewrite split_word by done. by f_equal.
Qed.

Lemma tokens_space (c : ascii) (s : string) (ws : list string) :
  isspace c = true → tokens s ws → tokens (String c s) ws.
Proof.
  intros Hc [g Hg|g w rest ws' Hg Hw Hrest Hws].
  - constructor. by apply is_gap_cons.
  - rewrite <-string_app_cons. constructor; try done. by apply is_gap_cons.
Qed.

Lemma tokens_char (c : ascii) (s : string) (ws : list string) :
  isspace c = false → tokens s ws → ∃ ws', tokens (String c s) ws'.
Proof.
  intros Hc [g Hg|g w rest ws' Hg [Hne Hw] Hrest Hws].
  - exists [String c ""].
    apply (tokens_cons "" (String c "") g []); try done.
    + split; [done|]. simpl. by rewrite Hc.
    + by apply is_gap_ends_word.
    + by constructor.
  - destruct g as [|c' g].
    + exists (String c w :: ws').
      apply (tokens_cons "" (String c w) rest ws'); try done.
      split; [done|]. simpl. by rewrite Hc.
    + exists (String c "" :: w :: ws').
      apply (tokens_cons "" (String c "") (String c' g +:+ w +:+ rest)
               (w :: ws')); try done.
      * split; [done|]. simpl. by rewrite Hc.
      * by apply is_gap_cons in Hg as [? _].
      * by constructor.
Qed.

Lemma tokens_exist (s : string) : ∃ ws, tokens s ws.
Proof.
  induction s as [|c s [ws IH]].
  - exists []. by constructor.
  - destruct (isspace c) eqn:Hc.
    + exists ws. by apply tokens_space.
    + by apply (tokens_char c s ws).
Qed.

(** [split s] is the list of the whitespace-separated tokens of [s]. *)
Lemma split_tokens (s : string) : tokens s (split s).
Proof.
  destruct (tokens_exist s) as [ws Hws].
  by rewrite <-(tokens_unique s ws Hws).
Qed.

(** ** Blog: the singleton guard *)

Lemma Blog_save_raises (self : Blog.t) (tbl : gmap Z Blog.t) :
  size tbl = 1%nat → truthy_pk (Blog.id self) = false →
  Blog.save self tbl
  = (self, tbl, Raised (Exception "Only one blog object allowed.")).
Proof.
  intros Hsz Hid. unfold Blog.save, count. rewrite Hsz, Hid. done.
Qed.

Lemma Blog_save_proceeds (self : Blog.t) (tbl : gmap Z Blog.t) :
  size tbl ≠ 1%nat ∨ truthy_pk (Blog.id self) = true →
  let k := from_option id (fresh_pk tbl) (Blog.id self) in
  Blog.save self tbl
  = (Blog.set_id (Some k) self, <[k := Blog.set_id (Some k) self]> tbl, Saved).
Proof.
  intros H k. unfold Blog.save, count.
  destruct ((Z.of_nat (size tbl) =? 1) && negb (truthy_pk (Blog.id self)))
    eqn:E; [|done].
  apply andb_true_iff in E as [E1 E2].
  apply Z.eqb_eq in E1. apply negb_true_iff in E2.
  destruct H as [H|H]; [lia|congruence].
Qed.

(** C5, as amended. Saving a Blog record that has no identity, its [id]
    being [None] or 0 (the guard's test [not self.id] takes both as
    unassigned), while exactly one Blog row exists raises, and the table
    is left as it was: no write occurs. Saving a record whose [id] is set
    and not 0 always proceeds: the call ends normally and the row is
    written under that identity. Every identity a save assigns to a
    record that had none is different from 0. *)
Theorem Blog_save_singleton_guard (self : Blog.t) (tbl : gmap Z Blog.t) :
  (Blog.id self = None ∨ Blog.id self = Some 0 → size tbl = 1%nat →
     ∃ msg, Blog.save self tbl = (self, tbl, Raised (Exception msg)))
  ∧ (∀ k, Blog.id self = Some k → k ≠ 0 →
     ∃ self' tbl', Blog.save self tbl = (self', tbl', Saved)
       ∧ Blog.id self' = Some k
       ∧ tbl' !! k = Some self'
       ∧ ∀ k', k' ≠ k → tbl' !! k' = tbl !! k')
  ∧ (∀ self' tbl', Blog.id self = None →
     Blog.save self tbl = (self', tbl', Saved) →
     ∃ k, Blog.id self' = Some k ∧ k ≠ 0 ∧ tbl' !! k = Some self').
Proof.
  split; [|split].
  - intros Hid Hsz. eexists. apply Blog_save_raises; [done|].
    by destruct Hid as [-> | ->].
  - intros k Hid Hk.
    pose proof (Blog_save_proceeds self tbl) as Hs. rewrite Hid in Hs.
    simpl in Hs. eexists _, _. split; [apply Hs|].
    { right. apply negb_true_iff, Z.eqb_neq, Hk. }
    split; [done|]. split; [apply lookup_insert_eq|].
    intros k' Hk'. by apply lookup_insert_ne.
  - intros self' tbl' Hid Hsave.
    destruct (decide (size tbl = 1%nat)) as [Hsz|Hsz].
    { rewrite Blog_save_raises in Hsave by (by rewrite ?Hid). done. }
    rewrite Blog_save_proceeds in Hsave by auto. rewrite Hid in Hsave.
    simpl in Hsave. injection Hsave as <- <-.
    exists (fresh_pk tbl). split; [done|].
    split; [pose proof (fresh_pk_pos tbl); lia|apply lookup_insert_eq].
Qed.

(** C5, as stated, fails: a record carrying the identity 0 is stored
    under the key 0 by a first save on the empty table; saving that
    stored record again, an update of the one existing row, raises. *)
Lemma Blog_save_id_zero_counterexample :
  Blog.id Cases.blog0 = Some 0
  ∧ Blog.save Cases.blog0 ∅
    = (Cases.blog0, {[ 0 := Cases.blog0 ]}, Saved)
  ∧ Blog.save Cases.blog0 {[ 0 := Cases.blog0 ]}
    = (Cases.blog0, {[ 0 := Cases.blog0 ]},
       Raised (Exception "Only one blog object allowed.")).
Proof. vm_compute. repeat split; reflexivity. Qed.

(** C10. The guard raises exactly when the table holds one row and the
    record has no identity (its [id] fails the test [self.id]); with two
    or more rows in the table, saving a record without identity ends
    normally and inserts it under a key that was free. *)
Theorem Blog_save_guard_only_at_one (self : Blog.t) (tbl : gmap Z Blog.t) :
  ((∃ e, (Blog.save self tbl).2 = Raised e)
     ↔ size tbl = 1%nat ∧ truthy_pk (Blog.id self) = false)
  ∧ ((2 ≤ size tbl)%nat → Blog.id self = None →
     ∃ self' k, Blog.save self tbl = (self', <[k := self']> tbl, Saved)
       ∧ tbl !! k = None
       ∧ Blog.id self' = Some k
       ∧ size (<[k := self']> tbl) = S (size tbl)).
Proof.
  split.
  - split.
    + intros [e He].
      destruct (decide (size tbl = 1%nat)) as [Hsz|Hsz];
        destruct (truthy_pk (Blog.id self)) eqn:Hid; try done;
        rewrite Blog_save_proceeds in He by auto; done.
    + intros [Hsz Hid]. rewrite Blog_save_raises by done. by eexists.
  - intros Hsz Hid.
    pose proof (Blog_save_proceeds self tbl) as Hs. rewrite Hid in Hs.
    simpl in Hs. eexists _, _. split; [apply Hs; left; lia|].
    split; [apply fresh_pk_lookup|]. split; [done|].
    apply map_size_insert_None, fresh_pk_lookup.
Qed.

Lemma Blog_save_singleton_guard_witness :
  (∃ msg, Blog.save Sample.second_blog Sample.blogs_one
          = (Sample.second_blog, Sample.blogs_one, Raised (Exception msg)))
  ∧ (∃ self' tbl', Blog.save Sample.stored_blog Sample.blogs_one
                   = (self', tbl', Saved)
       ∧ Blog.id self' = Some 1
       ∧ tbl' !! 1 = Some self'
       ∧ ∀ k', k' ≠ 1 → tbl' !! k' = Sample.blogs_one !! k')
  ∧ (∃ k, Blog.id Sample.stored_blog = Some k ∧ k ≠ 0
          ∧ Sample.blogs_one !! k = Some Sample.stored_blog).
Proof.
  split; [|split].
  - apply (Blog_save_singleton_guard Sample.second_blog Sample.blogs_one);
      [left; reflexivity | reflexivity].
  - apply (Blog_save_singleton_guard Sample.stored_blog Sample.blogs_one);
      [reflexivity | lia].
  - apply (Blog_save_singleton_guard Sample.first_blog ∅);
      reflexivity.
Defined.

Lemma Blog_save_guard_only_at_one_witness :
  ∃ self' k,
    Blog.save Sample.second_blog Sample.blogs_two
    = (self', <[k := self']> Sample.blogs_two, Saved)
    ∧ Sample.blogs_two !! k = None
    ∧ Blog.id self' = Some k
    ∧ size (<[k := self']> Sample.blogs_two) = S (size Sample.blogs_two).
Proof.
  apply (Blog_save_guard_only_at_one Sample.second_blog Sample.blogs_two).
  - vm_compute. lia.
  - reflexivity.
Defined.

(** ** Comment: the moderation gate and the public scope *)

Lemma Comment_objects_lookup (tbl : gmap Z Comment.t) (k : Z) (c : Comment.t) :
  Comment.objects tbl !! k = Some c
  ↔ tbl !! k = Some c ∧ Comment.is_public c = Some true.
Proof. unfold Comment.objects. by rewrite map_lookup_filter_Some. Qed.

Lemma Comment_Model_save_eq (now : datetime.t) (self : Comment.t)
    (tbl : gmap Z Comment.t) :
  ∃ self' k, Comment.Model_save now self tbl = (self', <[k := self']> tbl)
    ∧ Comment.id self' = Some k
    ∧ Comment.is_public self' = Comment.is_public self
    ∧ Comment.is_spam self' = Comment.is_spam self.
Proof.
  unfold Comment.Model_save, Model_save.
  set (add := match Comment.id self with
              | Some k => bool_decide (tbl !! k = None)
              | None => true
              end).
  eexists _, _. split; [reflexivity|]. by destruct add.
Qed.

(** C4. Saving a comment whose [is_spam] is true stores it with
    [is_public = False], whatever [is_public] the caller supplied, and the
    stored row is outside the listing of [Comment.objects]; that listing
    never holds a row whose [is_public] is not [True]. *)
Theorem Comment_save_spam_not_public (now : datetime.t) (self : Comment.t)
    (tbl : gmap Z Comment.t) :
  (Comment.is_spam self = true →
     ∃ self' k, Comment.save now self tbl = (self', <[k := self']> tbl, Saved)
       ∧ Comment.id self' = Some k
       ∧ Comment.is_public self' = Some false
       ∧ Comment.objects (<[k := self']> tbl) !! k = None)
  ∧ (∀ k c, Comment.objects tbl !! k = Some c →
            Comment.is_public c = Some true ∧ Comment.is_public c ≠ Some false).
Proof.
  split.
  - intros Hspam. unfold Comment.save. rewrite Hspam.
    destruct (Comment_Model_save_eq now
                (Comment.set_is_public (Some false) self) tbl)
      as (self' & k & -> & Hid & Hpub & _).
    exists self', k. simpl in Hpub. repeat split; try done.
    destruct (Comment.objects (<[k:=self']> tbl) !! k) as [c|] eqn:E; [|done].
    apply Comment_objects_lookup in E as [E1 E2].
    rewrite lookup_insert_eq in E1. congruence.
  - intros k c [_ Hc]%Comment_objects_lookup. by rewrite Hc.
Qed.

Lemma Comment_save_spam_not_public_witness :
  ∃ self' k,
    Comment.save Sample.jan1 Sample.spam_comment ∅ = (self', <[k := self']> ∅, Saved)
    ∧ Comment.id self' = Some k
    ∧ Comment.is_public self' = Some false
    ∧ Comment.objects (<[k := self']> ∅) !! k = None.
Proof.
  apply (Comment_save_spam_not_public Sample.jan1 Sample.spam_comment ∅).
  reflexivity.
Defined.

(** ** BlogEntry: the comment helpers *)

Global Instance newest_first_trans : Transitive Comment.newest_first.
Proof. intros a b c. unfold Comment.newest_first. lia. Qed.
Global Instance newest_first_total : Total Comment.newest_first.
Proof. intros a b. unfold Comment.newest_first. lia. Qed.

Lemma public_scope_filter (P : Z * Comment.t → Prop) `{!∀ kv, Decision (P kv)}
    (comments : gmap Z Comment.t) :
  filter P (Comment.objects comments)
  = filter (λ kv, P kv ∧ Comment.is_public kv.2 = Some true) comments.
Proof.
  unfold Comment.objects. rewrite map_filter_filter.
  apply map_filter_ext. by intros k c _.
Qed.

(** C3, as amended. [get_num_comments] returns the number of comments
    attached to the entry whose [is_public] is [True] and whose [is_spam]
    is false: the count runs over [Comment.objects], the public scope. *)
Theorem get_num_comments_counts_public_nonspam (self : BlogEntry.t)
    (comments : gmap Z Comment.t) :
  BlogEntry.get_num_comments self comments
  = Z.of_nat (size (filter (public_nonspam_for self) comments)).
Proof.
  unfold BlogEntry.get_num_comments, count. rewrite public_scope_filter.
  do 2 f_equal. apply map_filter_ext. intros k c _.
  unfold public_nonspam_for. simpl. tauto.
Qed.

(** C3, as stated, fails: a comment saved with the field defaults (not
    spam, [is_public] unset) is attached and not spam, and is not
    counted. *)
Lemma get_num_comments_counterexample :
  Sample.comments_pending !! 1
  = Some (Comment.set_id (Some 1)
            (Comment.set_created_on (Sample.jan1 + Sample.hour)
               Sample.pending_comment))
  ∧ nonspam_comment_count Sample.entry7 Sample.comments_pending = 1
  ∧ BlogEntry.get_num_comments Sample.entry7 Sample.comments_pending = 0
  ∧ BlogEntry.get_num_comments Sample.entry7 Sample.comments_pending
    ≠ nonspam_comment_count Sample.entry7 Sample.comments_pending.
Proof. vm_compute. repeat split; congruence. Qed.

(** C2, as amended. [get_recent_comments] returns exactly the comments
    attached to the entry whose [is_public] is [True], whose [is_spam] is
    false and whose [created_on] is later than 24 hours before the query
    time, ordered newest-first. *)
Theorem get_recent_comments_public_newest_first (now : datetime.t)
    (self : BlogEntry.t) (comments : gmap Z Comment.t) :
  BlogEntry.get_recent_comments now self comments
  ≡ₚ (map_to_list (filter (public_nonspam_recent_for now self) comments)).*2
  ∧ StronglySorted Comment.newest_first
      (BlogEntry.get_recent_comments now self comments).
Proof.
  unfold BlogEntry.get_recent_comments. split.
  - rewrite merge_sort_Permutation.
    unfold BlogEntry.recent_comments_qs. rewrite public_scope_filter.
    assert (∀ P Q : gmap Z Comment.t, P = Q →
              (map_to_list P).*2 ≡ₚ (map_to_list Q).*2) as Heq by (by intros ?? ->).
    apply Heq, map_filter_ext. intros k c _.
    unfold public_nonspam_recent_for, public_nonspam_for. simpl. tauto.
  - apply (StronglySorted_merge_sort _).
Qed.

(** C2, as stated, fails: of two public comments the later one is listed
    first, and a recent comment that is not spam and still pending is not
    listed. *)
Lemma get_recent_comments_counterexample :
  Comment.text <$> BlogEntry.get_recent_comments (Sample.jan1 + 4 * Sample.hour)
                     Sample.entry7 Sample.comments_three
  = ["later"; "earlier"]
  ∧ Comment.text <$> recent_nonspam_oldest_first (Sample.jan1 + 4 * Sample.hour)
                       Sample.entry7 Sample.comments_three
    = ["earlier"; "later"; "pending"]
  ∧ BlogEntry.get_recent_comments (Sample.jan1 + 4 * Sample.hour)
      Sample.entry7 Sample.comments_three
    ≠ recent_nonspam_oldest_first (Sample.jan1 + 4 * Sample.hour)
        Sample.entry7 Sample.comments_three.
Proof. vm_compute. repeat split; congruence. Qed.

(** ** BlogEntry: candidate slugs *)

Lemma string_length_app (s1 s2 : string) :
  String.length (s1 +:+ s2) = (String.length s1 + String.length s2)%nat.
Proof. induction s1 as [|c s1 IH]; simpl; [done|]. by rewrite IH. Qed.

Lemma string_app_nonempty_ne (s1 s2 : string) : s2 ≠ "" → s1 +:+ s2 ≠ s1.
Proof.
  intros Hs2 Heq. apply (f_equal String.length) in Heq.
  rewrite string_length_app in Heq. destruct s2; [done|]. simpl in Heq. lia.
Qed.

Global Instance create_slug_inj (base : string) : Inj (=) (=) (BlogEntry.create_slug base).
Proof.
  intros i j. unfold BlogEntry.create_slug.
  destruct (i =? 1) eqn:Hi, (j =? 1) eqn:Hj; simpl; intros Heq.
  - apply Z.eqb_eq in Hi, Hj. congruence.
  - symmetry in Heq. by apply string_app_nonempty_ne in Heq.
  - by apply string_app_nonempty_ne in Heq.
  - by apply (inj (String.app base)), (inj (String.app "-")), (inj pretty) in Heq.
Qed.

Lemma slug_count_lookup (now : datetime.t) (tbl : gmap Z BlogEntry.t)
    (pk : option Z) (c : string) (k : Z) (e : BlogEntry.t) :
  BlogEntry.slug_count now tbl pk c !! k = Some e
  ↔ tbl !! k = Some e ∧ Some k ≠ pk
    ∧ BlogEntry.in_published_scope now e = true ∧ BlogEntry.slug e = Some c.
Proof.
  unfold BlogEntry.slug_count, exclude_pk, BlogEntry.objects.
  rewrite !map_lookup_filter_Some. simpl. tauto.
Qed.

Lemma slug_count_nonempty (now : datetime.t) (tbl : gmap Z BlogEntry.t)
    (pk : option Z) (c : string) :
  nonempty (BlogEntry.slug_count now tbl pk c) = true ↔ slug_in_use now tbl pk c.
Proof.
  rewrite nonempty_true. unfold slug_in_use.
  by setoid_rewrite slug_count_lookup.
Qed.

Lemma slug_count_empty (now : datetime.t) (tbl : gmap Z BlogEntry.t)
    (pk : option Z) (c : string) :
  nonempty (BlogEntry.slug_count now tbl pk c) = false ↔ ¬ slug_in_use now tbl pk c.
Proof. rewrite <-slug_count_nonempty. by destruct (nonempty _). Qed.

Section probe.
Context (now : datetime.t) (tbl : gmap Z BlogEntry.t) (pk : option Z)
        (base : string).

Lemma probe_Some (fuel : nat) (i : Z) (c : string) :
  BlogEntry.probe fuel now tbl pk base i = Some c →
  ∃ j, i ≤ j < i + Z.of_nat fuel
       ∧ c = BlogEntry.create_slug base j
       ∧ ¬ slug_in_use now tbl pk c
       ∧ ∀ j', i ≤ j' < j → slug_in_use now tbl pk (BlogEntry.create_slug base j').
Proof.
  revert i. induction fuel as [|fuel IH]; intros i; simpl; [done|].
  destruct (nonempty _) eqn:E.
  - intros (j & Hj & -> & Hfree & Hbelow)%IH.
    exists j. split; [lia|]. split; [done|]. split; [done|].
    intros j' Hj'. destruct (decide (j' = i)) as [->|].
    + by apply slug_count_nonempty.
    + apply Hbelow. lia.
  - intros [= <-]. exists i. split; [lia|]. split; [done|].
    split; [by apply slug_count_empty|]. lia.
Qed.

Lemma probe_None (fuel : nat) (i : Z) :
  BlogEntry.probe fuel now tbl pk base i = None →
  ∀ j, i ≤ j < i + Z.of_nat fuel →
       slug_in_use now tbl pk (BlogEntry.create_slug base j).
Proof.
  revert i. induction fuel as [|fuel IH]; intros i; simpl; [lia|].
  destruct (nonempty _) eqn:E; [|done].
  intros Hnone j Hj. destruct (decide (j = i)) as [->|].
  - by apply slug_count_nonempty.
  - apply (IH _ Hnone). lia.
Qed.

(** The candidates are pairwise distinct, so the rows of the published
    scope cannot take one more candidate than there are rows. *)
Lemma candidates_not_all_in_use :
  ¬ ∀ j, 1 ≤ j < 1 + Z.of_nat (S (size (BlogEntry.objects now tbl))) →
         slug_in_use now tbl pk (BlogEntry.create_slug base j).
Proof.
  intros Hall.
  set (n := size (BlogEntry.objects now tbl)) in *.
  set (cands := (λ j : nat, Some (BlogEntry.create_slug base (Z.of_nat j)))
                  <$> seq 1 (S n)).
  set (slugs := (λ kv : Z * BlogEntry.t, BlogEntry.slug kv.2)
                  <$> map_to_list (BlogEntry.objects now tbl)).
  assert (length cands ≤ length slugs)%nat as Hle.
  { apply submseteq_length, NoDup_submseteq.
    - apply NoDup_fmap_2; [|apply NoDup_seq].
      intros a b [= Hab]. by apply (inj _), (inj Z.of_nat) in Hab.
    - intros x (j & -> & Hj%elem_of_seq)%list_elem_of_fmap.
      destruct (Hall (Z.of_nat j)) as (k & e & Hk & _ & Hscope & Hslug); [lia|].
      apply list_elem_of_fmap. exists (k, e). split; [done|].
      apply elem_of_map_to_list. unfold BlogEntry.objects.
      by apply map_lookup_filter_Some. }
  unfold cands, slugs in Hle.
  rewrite !length_fmap, length_seq, length_map_to_list in Hle. lia.
Qed.

(** The loop of [save] reaches its [break]. *)
Lemma probe_terminates :
  ∃ c, BlogEntry.probe (S (size (BlogEntry.objects now tbl))) now tbl pk base 1
       = Some c.
Proof.
  destruct (BlogEntry.probe _ now tbl pk base 1) as [c|] eqn:E; [by exists c|].
  destruct candidates_not_all_in_use. by apply probe_None.
Qed.

(** More fuel does not change what the loop returns. *)
Lemma probe_fuel_mono (fuel fuel' : nat) (i : Z) (c : string) :
  (fuel ≤ fuel')%nat →
  BlogEntry.probe fuel now tbl pk base i = Some c →
  BlogEntry.probe fuel' now tbl pk base i = Some c.
Proof.
  revert fuel' i. induction fuel as [|fuel IH]; intros fuel' i Hle; [done|].
  destruct fuel' as [|fuel']; [lia|]. simpl.
  destruct (nonempty _); [|done]. apply IH. lia.
Qed.
End probe.

(** Any fuel above the size of the published scope gives the result of
    [save]. *)
Lemma save_fuel_enough (slugify : string → string) (fuel : nat)
    (now : datetime.t) (self : BlogEntry.t) (tbl : gmap Z BlogEntry.t) :
  (size (BlogEntry.objects now tbl) < fuel)%nat →
  BlogEntry.save_fuel slugify fuel now self tbl
  = BlogEntry.save slugify now self tbl.
Proof.
  intros Hfuel.
  unfold BlogEntry.save, BlogEntry.save_fuel, BlogEntry.derive_fields.
  destruct (probe_terminates now tbl
              (BlogEntry.id (BlogEntry.infer_title_and_slug slugify self))
              (from_option (λ s, s) ""
                 (BlogEntry.slug (BlogEntry.infer_title_and_slug slugify self))))
    as [c Hc].
  rewrite Hc. apply (probe_fuel_mono _ _ _ _ _ fuel) in Hc; [|lia].
  by rewrite Hc.
Qed.

(** ** BlogEntry: what [save] does to the fields *)

Section entry_save.
Context (slugify : string → string).

Lemma blank_Some_false (x : option string) :
  blank x = false → ∃ s, x = Some s ∧ s ≠ "".
Proof.
  destruct x as [s|]; simpl; [|done].
  intros Hs%bool_decide_eq_false. by exists s.
Qed.

Lemma infer_title_and_slug_fields (self : BlogEntry.t) :
  let self' := BlogEntry.infer_title_and_slug slugify self in
  BlogEntry.title self' = Some (title_or_inferred self)
  ∧ BlogEntry.slug self' = Some (starting_slug slugify self)
  ∧ BlogEntry.id self' = BlogEntry.id self
  ∧ BlogEntry.text self' = BlogEntry.text self
  ∧ BlogEntry.summary self' = BlogEntry.summary self
  ∧ BlogEntry.created_on self' = BlogEntry.created_on self
  ∧ BlogEntry.is_published self' = BlogEntry.is_published self
  ∧ BlogEntry.publish_date self' = BlogEntry.publish_date self.
Proof.
  unfold BlogEntry.infer_title_and_slug, title_or_inferred, starting_slug,
    title_or_inferred.
  destruct self as [pk [t|] [s|] ?]; simpl;
    repeat case_bool_decide; simpl; repeat case_bool_decide;
    simplify_eq/=; done.
Qed.

Lemma default_summary_and_meta_fields (self : BlogEntry.t) :
  let self' := BlogEntry.default_summary_and_meta self in
  BlogEntry.title self' = BlogEntry.title self
  ∧ BlogEntry.slug self' = BlogEntry.slug self
  ∧ BlogEntry.id self' = BlogEntry.id self
  ∧ is_Some (BlogEntry.summary self')
  ∧ BlogEntry.created_on self' = BlogEntry.created_on self
  ∧ BlogEntry.is_published self' = BlogEntry.is_published self
  ∧ BlogEntry.publish_date self' = BlogEntry.publish_date self.
Proof.
  unfold BlogEntry.default_summary_and_meta.
  destruct self as [pk ? ? ? [s|] ? ? ? ? ? ? ? [mk|] [md|]]; simpl;
    repeat (case_bool_decide; simpl); repeat split; eauto.
Qed.

Lemma publish_fixup_fields (self : BlogEntry.t) :
  let '(self', raised) := BlogEntry.publish_fixup self in
  BlogEntry.title self' = BlogEntry.title self
  ∧ BlogEntry.slug self' = BlogEntry.slug self
  ∧ BlogEntry.id self' = BlogEntry.id self
  ∧ BlogEntry.summary self' = BlogEntry.summary self
  ∧ BlogEntry.is_published self' = BlogEntry.is_published self
  ∧ BlogEntry.publish_date self' = BlogEntry.publish_date self
  ∧ BlogEntry.created_on self' = created_on_after self
  ∧ raised = (if BlogEntry.is_published self
                 && bool_decide (BlogEntry.created_on self = None)
              then Some AttributeError else None).
Proof.
  unfold BlogEntry.publish_fixup, created_on_after.
  destruct self as [? ? ? ? ? [d|] ? ? [] ? ? ? ? ?]; simpl; try done.
  by destruct (datetime.year d =? 9999).
Qed.

(** [save] always returns: the loop ends, at the first candidate that no
    other row of the published scope carries, and the remaining lines
    run on the instance carrying that candidate. *)
Lemma save_unfold (now : datetime.t) (self : BlogEntry.t)
    (tbl : gmap Z BlogEntry.t) :
  ∃ i, 1 ≤ i
    ∧ ¬ slug_in_use now tbl (BlogEntry.id self)
          (BlogEntry.create_slug (starting_slug slugify self) i)
    ∧ (∀ j, 1 ≤ j < i →
         slug_in_use now tbl (BlogEntry.id self)
           (BlogEntry.create_slug (starting_slug slugify self) j))
    ∧ BlogEntry.save slugify now self tbl
      = let '(self', raised) :=
          BlogEntry.publish_fixup
            (BlogEntry.default_summary_and_meta
               (BlogEntry.set_slug
                  (Some (BlogEntry.create_slug (starting_slug slugify self) i))
                  (BlogEntry.infer_title_and_slug slugify self))) in
        match raised with
        | Some e => Some (self', tbl, Raised e)
        | None => Some (BlogEntry.Model_save self' tbl)
        end.
Proof.
  unfold BlogEntry.save, BlogEntry.save_fuel, BlogEntry.derive_fields.
  destruct (infer_title_and_slug_fields self) as (_ & Hslug & Hid & _).
  rewrite Hslug, Hid. cbn [from_option].
  destruct (probe_terminates now tbl (BlogEntry.id self)
              (starting_slug slugify self)) as [c Hc].
  rewrite Hc. simpl.
  apply probe_Some in Hc as (i & Hi & -> & Hfree & Hbelow).
  exists i. split; [lia|]. split; [done|]. split; [done|].
  by destruct (BlogEntry.publish_fixup _) as [self' [e|]].
Qed.
Lemma created_on_after_ext (self self' : BlogEntry.t) :
  BlogEntry.is_published self' = BlogEntry.is_published self →
  BlogEntry.created_on self' = BlogEntry.created_on self →
  BlogEntry.publish_date self' = BlogEntry.publish_date self →
  created_on_after self' = created_on_after self.
Proof. unfold created_on_after. by intros -> -> ->. Qed.

Lemma Model_save_entry (self : BlogEntry.t) (tbl : gmap Z BlogEntry.t) :
  is_Some (BlogEntry.title self) → is_Some (BlogEntry.slug self) →
  is_Some (BlogEntry.summary self) →
  BlogEntry.Model_save self tbl
  = match BlogEntry.created_on self with
    | Some _ =>
        let k := from_option id (fresh_pk tbl) (BlogEntry.id self) in
        (BlogEntry.set_id (Some k) self,
         <[k := BlogEntry.set_id (Some k) self]> tbl, Saved)
    | None => (self, tbl, Raised IntegrityError)
    end.
Proof.
  intros Ht Hs Hsum. unfold BlogEntry.Model_save, BlogEntry.not_null.
  rewrite !bool_decide_eq_true_2 by done. simpl.
  destruct (BlogEntry.created_on self) as [d|].
  - by rewrite bool_decide_eq_true_2 by eauto.
  - by rewrite bool_decide_eq_false_2 by (by intros [? ?]).
Qed.

(** Everything a call of [save] settles, in one statement. *)
Lemma save_spec (now : datetime.t) (self : BlogEntry.t)
    (tbl : gmap Z BlogEntry.t) :
  ∃ self' tbl' i,
    BlogEntry.save slugify now self tbl = Some (self', tbl', save_outcome self)
    ∧ 1 ≤ i
    ∧ ¬ slug_in_use now tbl (BlogEntry.id self)
          (BlogEntry.create_slug (starting_slug slugify self) i)
    ∧ (∀ j, 1 ≤ j < i →
         slug_in_use now tbl (BlogEntry.id self)
           (BlogEntry.create_slug (starting_slug slugify self) j))
    ∧ BlogEntry.title self' = Some (title_or_inferred self)
    ∧ BlogEntry.slug self'
      = Some (BlogEntry.create_slug (starting_slug slugify self) i)
    ∧ BlogEntry.is_published self' = BlogEntry.is_published self
    ∧ BlogEntry.publish_date self' = BlogEntry.publish_date self
    ∧ BlogEntry.created_on self' = created_on_after self
    ∧ match save_outcome self with
      | Saved =>
          let k := from_option id (fresh_pk tbl) (BlogEntry.id self) in
          BlogEntry.id self' = Some k ∧ tbl' = <[k := self']> tbl
      | Raised _ => BlogEntry.id self' = BlogEntry.id self ∧ tbl' = tbl
      end.
Proof.
  destruct (save_unfold now self tbl) as (i & Hi & Hfree & Hbelow & ->).
  set (c := BlogEntry.create_slug (starting_slug slugify self) i) in *.
  destruct (infer_title_and_slug_fields self)
    as (Ht0 & _ & Hid0 & _ & _ & Hco0 & Hpub0 & Hpd0).
  set (self0 := BlogEntry.infer_title_and_slug slugify self) in *.
  destruct (default_summary_and_meta_fields (BlogEntry.set_slug (Some c) self0))
    as (Ht1 & Hs1 & Hid1 & Hsum1 & Hco1 & Hpub1 & Hpd1).
  set (self1 := BlogEntry.default_summary_and_meta _) in *.
  simpl in Ht1, Hs1, Hid1, Hco1, Hpub1, Hpd1.
  pose proof (publish_fixup_fields self1) as Hfix.
  destruct (BlogEntry.publish_fixup self1) as [self2 raised].
  destruct Hfix as (Ht2 & Hs2 & Hid2 & Hsum2 & Hpub2 & Hpd2 & Hco2 & ->).
  assert (created_on_after self1 = created_on_after self) as Hafter.
  { apply created_on_after_ext; congruence. }
  unfold save_outcome. rewrite <-Hafter, <-Hco2.
  rewrite Hpub1, Hpub0, Hco1, Hco0.
  destruct (BlogEntry.is_published self
            && bool_decide (BlogEntry.created_on self = None)) eqn:Hattr.
  - exists self2, tbl, i. subst c. repeat split; try done; congruence.
  - rewrite Model_save_entry.
    2: { rewrite Ht2, Ht1, Ht0. eauto. }
    2: { rewrite Hs2, Hs1. eauto. }
    2: { by rewrite Hsum2. }
    destruct (BlogEntry.created_on self2) as [d|] eqn:Hd.
    + rewrite bool_decide_eq_false_2 by done.
      eexists _, _, i. split; [reflexivity|]. simpl. subst c.
      repeat split; try done; congruence.
    + rewrite bool_decide_eq_true_2 by done.
      exists self2, tbl, i. subst c. repeat split; try done; congruence.
Qed.
End entry_save.

(** ** BlogEntry: the claims about [save] *)

(** C1, as amended. Every save probes the candidates base, base-2,
    base-3, ... from the supplied or derived slug, leaving the entry's
    own identity out of the collision check, and assigns the first
    candidate that no other entry of the published scope carries (the
    entries with [is_published] true and a [publish_date] not later than
    the time of the save); when the save stores the entry, no other entry
    of that scope shares its slug, and if no two entries of the scope
    shared a slug before the save, none do after it. Entries outside the
    scope are not looked at. *)
Theorem save_assigns_first_free_slug (slugify : string → string)
    (now : datetime.t) (self : BlogEntry.t) (tbl : gmap Z BlogEntry.t) :
  ∃ self' tbl' r i,
    BlogEntry.save slugify now self tbl = Some (self', tbl', r)
    ∧ 1 ≤ i
    ∧ BlogEntry.slug self'
      = Some (BlogEntry.create_slug (starting_slug slugify self) i)
    ∧ ¬ slug_in_use now tbl (BlogEntry.id self)
          (BlogEntry.create_slug (starting_slug slugify self) i)
    ∧ (∀ j, 1 ≤ j < i →
         slug_in_use now tbl (BlogEntry.id self)
           (BlogEntry.create_slug (starting_slug slugify self) j))
    ∧ (r = Saved →
       ∃ k, BlogEntry.id self' = Some k ∧ tbl' !! k = Some self'
         ∧ ∀ k' e, k' ≠ k → tbl' !! k' = Some e →
                   BlogEntry.in_published_scope now e = true →
                   BlogEntry.slug e ≠ BlogEntry.slug self')
    ∧ (scope_slugs_distinct now tbl → scope_slugs_distinct now tbl').
Proof.
  destruct (save_spec slugify now self tbl)
    as (self' & tbl' & i & Hsave & Hi & Hfree & Hbelow & _ & Hslug & _ & _ & _
        & Hend).
  exists self', tbl', (save_outcome self), i.
  do 5 (split; [done|]).
  destruct (save_outcome self) as [|e]; [|destruct Hend as [_ ->]; by split].
  destruct Hend as [Hid ->].
  set (k := from_option id (fresh_pk tbl) (BlogEntry.id self)) in *.
  assert (∀ k' e, k' ≠ k → <[k := self']> tbl !! k' = Some e →
                  BlogEntry.in_published_scope now e = true →
                  BlogEntry.slug e ≠ BlogEntry.slug self') as Hothers.
  { intros k' e Hk'. rewrite lookup_insert_ne by done.
    intros He Hscope Heq. apply Hfree. exists k', e.
    split; [done|]. split; [|split; [done|congruence]].
    subst k. destruct (BlogEntry.id self) as [k0|]; simpl in *; congruence. }
  split.
  - intros _. exists k. split; [done|]. split; [apply lookup_insert_eq|done].
  - intros Hdistinct k1 k2 e1 e2 H1 H2 Hs1 Hs2 Heq.
    destruct (decide (k1 = k)) as [->|Hk1], (decide (k2 = k)) as [->|Hk2];
      [done| | |].
    + rewrite lookup_insert_eq in H1. injection H1 as <-.
      by destruct (Hothers k2 e2).
    + rewrite lookup_insert_eq in H2. injection H2 as <-.
      by destruct (Hothers k1 e1).
    + rewrite lookup_insert_ne in H1, H2 by done.
      by apply (Hdistinct k1 k2 e1 e2).
Qed.

(** C1, as stated, fails: a draft is stored with the slug "hello-world";
    a published post saved afterwards with the same slug keeps it,
    because the draft is outside the published scope, and two rows share
    the slug. *)
Lemma save_slug_unique_counterexample :
  BlogEntry.save Sample.slugify Sample.jan1 Sample.draft ∅
  = Some (Sample.stored_draft, Sample.entries_draft, Saved)
  ∧ BlogEntry.save Sample.slugify (Sample.jan1 + Sample.hour) Sample.post
      Sample.entries_draft
    = Some (Sample.stored_post, Sample.entries_both, Saved)
  ∧ Sample.entries_both !! 1 = Some Sample.stored_draft
  ∧ Sample.entries_both !! 2 = Some Sample.stored_post
  ∧ BlogEntry.slug Sample.stored_draft = Some "hello-world"
  ∧ BlogEntry.slug Sample.stored_post = Some "hello-world".
Proof. vm_compute. repeat split; reflexivity. Qed.

(** C8, as amended. Saving again an entry that has an identity and a
    slug leaves its slug as it is, provided no other entry of the
    published scope carries that slug at the time of the save: the probe
    then selects the current slug as the first free candidate. *)
Theorem resave_keeps_slug (slugify : string → string) (now : datetime.t)
    (self : BlogEntry.t) (tbl : gmap Z BlogEntry.t) (k : Z) (s : string) :
  BlogEntry.id self = Some k →
  BlogEntry.slug self = Some s → s ≠ "" →
  ¬ slug_in_use now tbl (Some k) s →
  ∃ self' tbl' r,
    BlogEntry.save slugify now self tbl = Some (self', tbl', r)
    ∧ BlogEntry.slug self' = Some s
    ∧ BlogEntry.id self' = Some k.
Proof.
  intros Hid Hs Hne Hfree.
  destruct (save_spec slugify now self tbl)
    as (self' & tbl' & i & Hsave & Hi & _ & Hbelow & _ & Hslug & _ & _ & _
        & Hend).
  assert (starting_slug slugify self = s) as Hbase.
  { unfold starting_slug. rewrite Hs. by rewrite bool_decide_eq_false_2. }
  rewrite Hbase, Hid in *.
  assert (i = 1) as ->.
  { destruct (decide (i = 1)) as [|Hi1]; [done|].
    destruct Hfree. apply (Hbelow 1). lia. }
  exists self', tbl', (save_outcome self). split; [done|]. split; [done|].
  destruct (save_outcome self); simpl in Hend; by destruct Hend.
Qed.

Lemma resave_keeps_slug_witness :
  ∃ self' tbl' r,
    BlogEntry.save Sample.slugify (Sample.jan1 + 2 * Sample.hour)
      Sample.stored_post Sample.entries_both = Some (self', tbl', r)
    ∧ BlogEntry.slug self' = Some "hello-world"
    ∧ BlogEntry.id self' = Some 2.
Proof.
  apply (resave_keeps_slug Sample.slugify (Sample.jan1 + 2 * Sample.hour)
           Sample.stored_post Sample.entries_both 2 "hello-world");
    [reflexivity | reflexivity | discriminate |].
  intros (k & e & Hk & Hne & Hscope & _).
  destruct (decide (k = 2)) as [->|]; [done|].
  destruct (decide (k = 1)) as [->|].
  - vm_compute in Hk. injection Hk as <-. discriminate Hscope.
  - unfold Sample.entries_both, Sample.entries_draft in Hk.
    rewrite lookup_insert_ne, lookup_singleton_ne in Hk by done. discriminate.
Defined.

(** C8, as stated, fails: the stored draft of the previous example is
    saved again unchanged, an hour after the post took the same slug, and
    comes back with the slug "hello-world-2". *)
Lemma resave_changes_slug_counterexample :
  Sample.entries_both !! 1 = Some Sample.stored_draft
  ∧ BlogEntry.slug Sample.stored_draft = Some "hello-world"
  ∧ BlogEntry.save Sample.slugify (Sample.jan1 + 2 * Sample.hour)
      Sample.stored_draft Sample.entries_both
    = Some (BlogEntry.set_slug (Some "hello-world-2") Sample.stored_draft,
            <[1 := BlogEntry.set_slug (Some "hello-world-2") Sample.stored_draft]>
              Sample.entries_both,
            Saved).
Proof. vm_compute. repeat split; reflexivity. Qed.

(** C6. An entry saved with a blank title ([None] or the empty string)
    comes out with the first five whitespace-separated tokens of its raw
    text joined by hyphens as its title, and the row the save stores
    carries that title; the save stores the row whenever [created_on] is
    not null once lines 108-111 have run. *)
Theorem save_infers_blank_title (slugify : string → string)
    (now : datetime.t) (self : BlogEntry.t) (tbl : gmap Z BlogEntry.t) :
  blank (BlogEntry.title self) = true →
  ∃ self' tbl' r ws,
    BlogEntry.save slugify now self tbl = Some (self', tbl', r)
    ∧ tokens (BlogEntry.raw (BlogEntry.text self)) ws
    ∧ BlogEntry.title self' = Some (join "-" (take 5 ws))
    ∧ (r = Saved → ∃ k, BlogEntry.id self' = Some k ∧ tbl' !! k = Some self')
    ∧ (is_Some (created_on_after self) → r = Saved).
Proof.
  intros Hblank.
  destruct (save_spec slugify now self tbl)
    as (self' & tbl' & i & Hsave & _ & _ & _ & Htitle & _ & _ & _ & _ & Hend).
  exists self', tbl', (save_outcome self),
    (split (BlogEntry.raw (BlogEntry.text self))).
  split; [done|]. split; [apply split_tokens|]. split.
  - rewrite Htitle. f_equal. unfold title_or_inferred.
    destruct (BlogEntry.title self) as [t|]; [|done].
    simpl in Hblank. by rewrite Hblank.
  - split.
    + intros Hr. rewrite Hr in Hend. destruct Hend as [Hid ->].
      eexists. split; [done|]. apply lookup_insert_eq.
    + intros [d Hd]. unfold save_outcome.
      rewrite Hd, (bool_decide_eq_false_2 (Some d = None)) by done.
      unfold created_on_after in Hd.
      destruct (BlogEntry.is_published self); [|done].
      destruct (BlogEntry.created_on self); [|done].
      by rewrite bool_decide_eq_false_2.
Qed.

Lemma save_infers_blank_title_witness :
  ∃ self' tbl' r ws,
    BlogEntry.save Sample.slugify Sample.jan1 Sample.untitled ∅
    = Some (self', tbl', r)
    ∧ tokens "one two three four five six seven" ws
    ∧ BlogEntry.title self' = Some (join "-" (take 5 ws))
    ∧ (r = Saved → ∃ k, BlogEntry.id self' = Some k ∧ tbl' !! k = Some self')
    ∧ (is_Some (created_on_after Sample.untitled) → r = Saved).
Proof.
  apply (save_infers_blank_title Sample.slugify Sample.jan1 Sample.untitled ∅).
  reflexivity.
Defined.

(** C7, as amended. An entry whose [created_on] is [datetime.max] and
    which is saved with [is_published] true comes out with [created_on]
    equal to its [publish_date]; and, provided that [publish_date] does
    not lie in the year 9999, a later save of the entry, whatever its
    [publish_date] has become, leaves [created_on] as the first save set
    it. *)
Theorem first_publish_sets_created_on (slugify : string → string)
    (now : datetime.t) (self : BlogEntry.t) (tbl : gmap Z BlogEntry.t) :
  BlogEntry.created_on self = Some datetime.max →
  BlogEntry.is_published self = true →
  ∃ self1 tbl1 r1,
    BlogEntry.save slugify now self tbl = Some (self1, tbl1, r1)
    ∧ BlogEntry.created_on self1 = BlogEntry.publish_date self
    ∧ (is_Some (BlogEntry.publish_date self) →
       r1 = Saved ∧ ∃ k, BlogEntry.id self1 = Some k ∧ tbl1 !! k = Some self1)
    ∧ ((∀ d, BlogEntry.publish_date self = Some d → datetime.year d ≠ 9999) →
       ∀ now2 self2 tbl2,
         BlogEntry.created_on self2 = BlogEntry.created_on self1 →
         ∃ self3 tbl3 r3,
           BlogEntry.save slugify now2 self2 tbl2 = Some (self3, tbl3, r3)
           ∧ BlogEntry.created_on self3 = BlogEntry.created_on self1).
Proof.
  intros Hmax Hpub.
  destruct (save_spec slugify now self tbl)
    as (self1 & tbl1 & i & Hsave & _ & _ & _ & _ & _ & _ & _ & Hco & Hend).
  assert (created_on_after self = BlogEntry.publish_date self) as Hafter.
  { unfold created_on_after. by rewrite Hpub, Hmax. }
  rewrite Hafter in Hco.
  exists self1, tbl1, (save_outcome self).
  split; [done|]. split; [done|]. split.
  - intros [d Hd].
    assert (save_outcome self = Saved) as Hr.
    { unfold save_outcome. rewrite Hafter, Hpub, Hmax, Hd. done. }
    rewrite Hr in Hend |- *. destruct Hend as [Hid ->].
    split; [done|]. eexists. split; [done|]. apply lookup_insert_eq.
  - intros Hyear now2 self2 tbl2 Hsame.
    destruct (save_spec slugify now2 self2 tbl2)
      as (self3 & tbl3 & i3 & Hsave3 & _ & _ & _ & _ & _ & _ & _ & Hco3 & _).
    exists self3, tbl3, (save_outcome self2). split; [done|].
    rewrite Hco3, Hco. unfold created_on_after. rewrite Hsame, Hco.
    destruct (BlogEntry.is_published self2); [|done].
    destruct (BlogEntry.publish_date self) as [d|] eqn:Hd; [|done].
    by rewrite (proj2 (Z.eqb_neq _ _) (Hyear d eq_refl)).
Qed.

Lemma first_publish_sets_created_on_witness :
  ∃ self1 tbl1 r1,
    BlogEntry.save Sample.slugify (Sample.jan1 + Sample.hour) Sample.post
      Sample.entries_draft = Some (self1, tbl1, r1)
    ∧ BlogEntry.created_on self1 = Some Sample.jan1
    ∧ (r1 = Saved ∧ ∃ k, BlogEntry.id self1 = Some k ∧ tbl1 !! k = Some self1)
    ∧ ∀ now2 self2 tbl2,
        BlogEntry.created_on self2 = BlogEntry.created_on self1 →
        ∃ self3 tbl3 r3,
          BlogEntry.save Sample.slugify now2 self2 tbl2 = Some (self3, tbl3, r3)
          ∧ BlogEntry.created_on self3 = BlogEntry.created_on self1.
Proof.
  destruct (first_publish_sets_created_on Sample.slugify
              (Sample.jan1 + Sample.hour) Sample.post Sample.entries_draft)
    as (self1 & tbl1 & r1 & Hsave & Hco & Hstored & Hlater);
    [reflexivity | reflexivity |].
  exists self1, tbl1, r1. split; [exact Hsave|]. split; [exact Hco|].
  split.
  - apply Hstored. by eexists.
  - apply Hlater. intros d [= <-]. vm_compute. discriminate.
Defined.

(** C7, as stated, fails: a post published on 9999-01-01 is stored with
    that [created_on]; saved again with the publication date moved to
    9999-06-01, its [created_on] moves with it, the year of the stored
    [created_on] being 9999 still. *)
Lemma created_on_overwritten_counterexample :
  BlogEntry.save Sample.slugify Sample.jan1 Sample.post9999 ∅
  = Some (Sample.stored_post9999, {[ 1 := Sample.stored_post9999 ]}, Saved)
  ∧ BlogEntry.created_on Sample.stored_post9999 = Some Sample.y9999_jan1
  ∧ datetime.valid Sample.y9999_jan1 ∧ datetime.valid Sample.y9999_jun1
  ∧ (BlogEntry.created_on ∘ fst ∘ fst)
      <$> BlogEntry.save Sample.slugify (Sample.jan1 + Sample.hour)
            (BlogEntry.set_publish_date (Some Sample.y9999_jun1)
               Sample.stored_post9999)
            {[ 1 := Sample.stored_post9999 ]}
    = Some (Some Sample.y9999_jun1)
  ∧ Sample.y9999_jun1 ≠ Sample.y9999_jan1.
Proof. vm_compute. repeat split; congruence. Qed.

Section entry_null_date.
Context (slugify : string → string).

Lemma derive_fields_spec (now : datetime.t) (self : BlogEntry.t)
    (tbl : gmap Z BlogEntry.t) :
  ∃ self' raised,
    BlogEntry.derive_fields slugify (S (size (BlogEntry.objects now tbl)))
      now self tbl = Some (self', raised)
    ∧ BlogEntry.created_on self' = created_on_after self
    ∧ raised = (if BlogEntry.is_published self
                   && bool_decide (BlogEntry.created_on self = None)
                then Some AttributeError else None)
    ∧ BlogEntry.save slugify now self tbl
      = match raised with
        | Some e => Some (self', tbl, Raised e)
        | None => Some (BlogEntry.Model_save self' tbl)
        end.
Proof.
  unfold BlogEntry.save, BlogEntry.save_fuel, BlogEntry.derive_fields.
  destruct (infer_title_and_slug_fields slugify self)
    as (_ & Hslug & Hid & _ & _ & Hco0 & Hpub0 & Hpd0).
  rewrite Hslug, Hid. cbn [from_option].
  destruct (probe_terminates now tbl (BlogEntry.id self)
              (starting_slug slugify self)) as [c ->].
  cbn [mbind option_bind].
  set (self0 := BlogEntry.infer_title_and_slug slugify self) in *.
  destruct (default_summary_and_meta_fields (BlogEntry.set_slug (Some c) self0))
    as (_ & _ & _ & _ & Hco1 & Hpub1 & Hpd1).
  set (self1 := BlogEntry.default_summary_and_meta _) in *.
  simpl in Hco1, Hpub1, Hpd1.
  pose proof (publish_fixup_fields self1) as Hfix.
  destruct (BlogEntry.publish_fixup self1) as [self2 raised].
  destruct Hfix as (_ & _ & _ & _ & _ & _ & Hco2 & ->).
  eexists _, _. split; [reflexivity|]. split.
  - rewrite Hco2. apply created_on_after_ext; congruence.
  - split; [|done]. by rewrite Hpub1, Hpub0, Hco1, Hco0.
Qed.
End entry_null_date.

(** C9. An entry saved with [is_published] true, a [created_on] in the
    year 9999 and no [publish_date] leaves lines 86-111 of [save] with
    [created_on = None] and without an exception: the null date is copied
    and the instance is handed to the inherited [save] as it is, where
    the storage engine, not [BlogEntry.save], refuses the null. *)
Theorem publish_without_date_nulls_created_on (slugify : string → string)
    (now : datetime.t) (self : BlogEntry.t) (tbl : gmap Z BlogEntry.t)
    (d : datetime.t) :
  BlogEntry.is_published self = true →
  BlogEntry.created_on self = Some d → datetime.year d = 9999 →
  BlogEntry.publish_date self = None →
  ∃ self',
    BlogEntry.derive_fields slugify (S (size (BlogEntry.objects now tbl)))
      now self tbl = Some (self', None)
    ∧ BlogEntry.created_on self' = None
    ∧ BlogEntry.save slugify now self tbl
      = Some (BlogEntry.Model_save self' tbl)
    ∧ BlogEntry.Model_save self' tbl = (self', tbl, Raised IntegrityError).
Proof.
  intros Hpub Hco Hyear Hpd.
  destruct (derive_fields_spec slugify now self tbl)
    as (self' & raised & Hderive & Hco' & -> & Hsave).
  rewrite Hco in Hsave, Hderive. rewrite andb_false_r in Hsave, Hderive.
  assert (BlogEntry.created_on self' = None) as Hnull.
  { rewrite Hco'. unfold created_on_after. rewrite Hpub, Hco, Hyear. done. }
  exists self'. split; [done|]. split; [done|]. split; [done|].
  unfold BlogEntry.Model_save, BlogEntry.not_null. rewrite Hnull.
  by rewrite (bool_decide_eq_false_2 (is_Some None)), andb_false_r
    by (by intros [? ?]).
Qed.

Lemma publish_without_date_nulls_created_on_witness :
  ∃ self',
    BlogEntry.derive_fields Sample.slugify
      (S (size (BlogEntry.objects Sample.jan1 ∅))) Sample.jan1 Sample.undated ∅
    = Some (self', None)
    ∧ BlogEntry.created_on self' = None
    ∧ BlogEntry.save Sample.slugify Sample.jan1 Sample.undated ∅
      = Some (BlogEntry.Model_save self' ∅)
    ∧ BlogEntry.Model_save self' ∅ = (self', ∅, Raised IntegrityError).
Proof.
  apply (publish_without_date_nulls_created_on Sample.slugify Sample.jan1
           Sample.undated ∅ datetime.max); reflexivity.
Defined.

(** * Further properties *)

(** ** Blog: [get_blog] and the rows [save] leaves *)

Lemma size_two_keys {A} (m : gmap Z A) (k1 k2 : Z) :
  k1 ≠ k2 → is_Some (m !! k1) → is_Some (m !! k2) → (2 ≤ size m)%nat.
Proof.
  intros Hne H1 H2.
  assert (is_Some (delete k1 m !! k2)) as H2'.
  { by rewrite lookup_delete_ne. }
  pose proof (map_size_delete_Some k1 m H1) as E1.
  pose proof (map_size_delete_Some k2 (delete k1 m) H2') as E2.
  destruct (size m) as [|[|n]] eqn:Hsz; [| |lia].
  - apply map_size_empty_iff in Hsz. subst m.
    rewrite lookup_empty in H1. by destruct H1.
  - simpl in E1. apply map_size_empty_iff in E1. rewrite E1 in H2'.
    rewrite lookup_empty in H2'. by destruct H2'.
Qed.

Lemma get_blog_stored (tbl : gmap Z Blog.t) (b : Blog.t) :
  Blog.get_blog tbl = Some b → ∃ k, tbl !! k = Some b.
Proof.
  unfold Blog.get_blog. intros Hhead.
  assert (b ∈ (map_to_list tbl).*2) as Hb.
  { destruct ((map_to_list tbl).*2) as [|x l]; simplify_eq/=. by left. }
  apply list_elem_of_fmap in Hb as ([k b'] & -> & Hkb).
  exists k. by apply elem_of_map_to_list.
Qed.

Lemma get_blog_None (tbl : gmap Z Blog.t) :
  Blog.get_blog tbl = None ↔ tbl = ∅.
Proof.
  unfold Blog.get_blog. split.
  - intros Hhead. apply map_to_list_empty_iff.
    destruct (map_to_list tbl) as [|x l]; [done|]. done.
  - intros ->. by rewrite map_to_list_empty.
Qed.

Lemma get_blog_single (tbl : gmap Z Blog.t) (k : Z) (b : Blog.t) :
  tbl !! k = Some b → size tbl = 1%nat → Blog.get_blog tbl = Some b.
Proof.
  intros Hk Hsz.
  destruct (Blog.get_blog tbl) as [b'|] eqn:Hget.
  - destruct (get_blog_stored tbl b' Hget) as [k' Hk'].
    destruct (decide (k = k')) as [->|Hne]; [congruence|].
    pose proof (size_two_keys tbl k k' Hne) as Htwo.
    rewrite Hk, Hk' in Htwo. specialize (Htwo (mk_is_Some _ _ eq_refl)
                                               (mk_is_Some _ _ eq_refl)). lia.
  - apply get_blog_None in Hget. subst tbl. by rewrite lookup_empty in Hk.
Qed.

(** X1. [get_blog] returns [None] exactly on the empty table; what it
    returns otherwise is a row of the table, and when the table holds one
    row it is that row. *)
Theorem get_blog_returns_stored_row (tbl : gmap Z Blog.t) :
  (Blog.get_blog tbl = None ↔ tbl = ∅)
  ∧ (∀ b, Blog.get_blog tbl = Some b → ∃ k, tbl !! k = Some b)
  ∧ (∀ k b, tbl !! k = Some b → size tbl = 1%nat →
            Blog.get_blog tbl = Some b).
Proof.
  split; [apply get_blog_None|]. split; [apply get_blog_stored|].
  apply get_blog_single.
Qed.

(** X2. On an empty table the first save of a record without identity
    stores it, and [get_blog] returns it from then on: every further save
    of a record without identity raises and leaves the table as it is. *)
Theorem first_blog_is_the_blog (self other : Blog.t) :
  Blog.id self = None → Blog.id other = None →
  ∃ self' tbl',
    Blog.save self ∅ = (self', tbl', Saved)
    ∧ Blog.get_blog tbl' = Some self'
    ∧ Blog.title self' = Blog.title self
    ∧ ∃ msg, Blog.save other tbl' = (other, tbl', Raised (Exception msg)).
Proof.
  intros Hself Hother.
  pose proof (Blog_save_proceeds self ∅) as Hs. rewrite Hself in Hs.
  simpl in Hs. eexists _, _. split; [apply Hs; left; by rewrite map_size_empty|].
  assert (size (<[fresh_pk (∅ : gmap Z Blog.t) :=
                   Blog.set_id (Some (fresh_pk (∅ : gmap Z Blog.t))) self]>
                  (∅ : gmap Z Blog.t)) = 1%nat) as Hsz.
  { by rewrite map_size_insert_None, map_size_empty by apply lookup_empty. }
  split; [|split; [done|]].
  - eapply get_blog_single; [apply lookup_insert_eq|done].
  - eexists. apply Blog_save_raises; [done|]. by rewrite Hother.
Qed.

Lemma first_blog_is_the_blog_witness :
  ∃ self' tbl',
    Blog.save Sample.first_blog ∅ = (self', tbl', Saved)
    ∧ Blog.get_blog tbl' = Some self'
    ∧ Blog.title self' = Blog.title Sample.first_blog
    ∧ ∃ msg, Blog.save Sample.second_blog tbl'
             = (Sample.second_blog, tbl', Raised (Exception msg)).
Proof.
  apply (first_blog_is_the_blog Sample.first_blog Sample.second_blog);
    reflexivity.
Defined.

(** X3. Saves of records that fail the guard's test [self.id] keep the
    table at one row at most: a table of at most one row has at most one
    row after such a save. *)
Theorem Blog_save_keeps_at_most_one (self : Blog.t) (tbl : gmap Z Blog.t) :
  truthy_pk (Blog.id self) = false → (size tbl ≤ 1)%nat →
  (size (Blog.save self tbl).1.2 ≤ 1)%nat.
Proof.
  intros Hid Hsz.
  destruct (decide (size tbl = 1%nat)) as [Hone|Hone].
  - rewrite Blog_save_raises by done. simpl. lia.
  - rewrite Blog_save_proceeds by auto. simpl.
    assert (size tbl = 0%nat) as Hzero by lia.
    apply map_size_empty_iff in Hzero. subst tbl.
    by rewrite map_size_insert_None, map_size_empty by apply lookup_empty.
Qed.

Lemma Blog_save_keeps_at_most_one_witness :
  (size (Blog.save Sample.second_blog Sample.blogs_one).1.2 ≤ 1)%nat.
Proof.
  apply (Blog_save_keeps_at_most_one Sample.second_blog Sample.blogs_one).
  - reflexivity.
  - vm_compute. lia.
Defined.

(** X4. The guard does not look at the table when the record carries an
    identity: saved with an identity no row has, a record is inserted as
    one more row, also beside an existing one; saved again as it is
    stored, a record leaves the table unchanged. *)
Theorem Blog_save_with_identity (self : Blog.t) (tbl : gmap Z Blog.t) (k : Z) :
  Blog.id self = Some k → k ≠ 0 →
  (tbl !! k = None →
     (Blog.save self tbl).2 = Saved
     ∧ size (Blog.save self tbl).1.2 = S (size tbl))
  ∧ (tbl !! k = Some self → Blog.save self tbl = (self, tbl, Saved)).
Proof.
  intros Hid Hk.
  pose proof (Blog_save_proceeds self tbl) as Hs. rewrite Hid in Hs.
  simpl in Hs. rewrite Hs by (right; apply negb_true_iff, Z.eqb_neq, Hk).
  assert (Blog.set_id (Some k) self = self) as Hself.
  { destruct self. simpl in Hid. by rewrite Hid. }
  rewrite Hself. split.
  - intros Hnone. simpl. split; [done|]. by apply map_size_insert_None.
  - intros Hsome. by rewrite insert_id.
Qed.

Lemma Blog_save_with_identity_witness :
  ((Blog.save Cases.blog5 Sample.blogs_one).2 = Saved
   ∧ size (Blog.save Cases.blog5 Sample.blogs_one).1.2
     = S (size Sample.blogs_one))
  ∧ Blog.save Sample.stored_blog Sample.blogs_one
    = (Sample.stored_blog, Sample.blogs_one, Saved).
Proof.
  split.
  - apply (Blog_save_with_identity Cases.blog5 Sample.blogs_one 5);
      [reflexivity | lia | reflexivity].
  - apply (Blog_save_with_identity Sample.stored_blog Sample.blogs_one 1);
      [reflexivity | lia | reflexivity].
Defined.

(** ** Counting the rows a filter keeps *)

Lemma size_filter_insert `{Countable K} {A} (P : K * A → Prop)
    `{!∀ x, Decision (P x)} (m : gmap K A) (k : K) (x : A) :
  size (filter P (<[k := x]> m))
  = (size (filter P (delete k m)) + (if decide (P (k, x)) then 1 else 0))%nat.
Proof.
  rewrite map_filter_insert. destruct (decide (P (k, x))); [|lia].
  rewrite <-insert_delete_eq, map_size_insert_None by apply lookup_delete_eq.
  rewrite map_filter_delete. lia.
Qed.

Lemma size_filter_stored `{Countable K} {A} (P : K * A → Prop)
    `{!∀ x, Decision (P x)} (m : gmap K A) (k : K) (y : A) :
  m !! k = Some y →
  size (filter P m)
  = (size (filter P (delete k m)) + (if decide (P (k, y)) then 1 else 0))%nat.
Proof.
  intros Hk. rewrite <-(insert_delete_id m k y Hk) at 1.
  rewrite size_filter_insert. by rewrite delete_delete_eq.
Qed.

(** ** Comment: what [save] writes *)

Lemma Comment_save_explicit (now : datetime.t) (self : Comment.t)
    (tbl : gmap Z Comment.t) :
  let k := from_option id (fresh_pk tbl) (Comment.id self) in
  let moderated :=
    if Comment.is_spam self then Comment.set_is_public (Some false) self
    else self in
  let stamped :=
    if match Comment.id self with
       | Some k0 => bool_decide (tbl !! k0 = None)
       | None => true
       end
    then Comment.set_created_on now moderated else moderated in
  Comment.save now self tbl
  = (Comment.set_id (Some k) stamped,
     <[k := Comment.set_id (Some k) stamped]> tbl, Saved).
Proof.
  unfold Comment.save, Comment.Model_save, Model_save.
  destruct self as [[k0|] ? ? ? ? ? ? ? [] ? ? ?]; simpl;
    try destruct (bool_decide (tbl !! k0 = None)); done.
Qed.

(** X5. [Comment.save] changes nothing a caller supplied but the
    moderation flag: the instance it leaves carries the text, entry,
    author fields and [is_spam] it was given, and the [is_public] it was
    given unless the comment is spam. *)
Theorem Comment_save_keeps_what_was_given (now : datetime.t)
    (self : Comment.t) (tbl : gmap Z Comment.t) :
  let self' := (Comment.save now self tbl).1.1 in
  Comment.text self' = Comment.text self
  ∧ Comment.comment_for self' = Comment.comment_for self
  ∧ Comment.user_name self' = Comment.user_name self
  ∧ Comment.user_url self' = Comment.user_url self
  ∧ Comment.created_by self' = Comment.created_by self
  ∧ Comment.email_id self' = Comment.email_id self
  ∧ Comment.user_ip self' = Comment.user_ip self
  ∧ Comment.user_agent self' = Comment.user_agent self
  ∧ Comment.is_spam self' = Comment.is_spam self
  ∧ Comment.is_public self'
    = (if Comment.is_spam self then Some false else Comment.is_public self).
Proof.
  rewrite Comment_save_explicit.
  destruct (Comment.is_spam self) eqn:Hspam; simpl;
    destruct (Comment.id self) as [k0|]; simpl;
    try destruct (bool_decide (tbl !! k0 = None)); simpl;
    rewrite ?Hspam; done.
Qed.

(** X6. [created_on] is set when the row is inserted and only then: a
    comment without identity is stored under a key no row had, with the
    time of the save as [created_on]; a comment saved under the key of a
    stored row keeps the [created_on] it carries; in both cases no other
    row changes. *)
Theorem Comment_save_created_on (now : datetime.t) (self : Comment.t)
    (tbl : gmap Z Comment.t) :
  ∃ self' k,
    Comment.save now self tbl = (self', <[k := self']> tbl, Saved)
    ∧ Comment.id self' = Some k
    ∧ (Comment.id self = None →
       tbl !! k = None ∧ Comment.created_on self' = now)
    ∧ (∀ k0, Comment.id self = Some k0 →
       k = k0
       ∧ (is_Some (tbl !! k0) →
          Comment.created_on self' = Comment.created_on self)
       ∧ (tbl !! k0 = None → Comment.created_on self' = now)).
Proof.
  rewrite Comment_save_explicit. eexists _, _. split; [reflexivity|].
  split; [done|]. split.
  - intros Hid. rewrite Hid. simpl. split; [apply fresh_pk_lookup|].
    by destruct (Comment.is_spam self).
  - intros k0 Hid. rewrite Hid. simpl. split; [done|]. split.
    + intros [c Hc]. rewrite bool_decide_eq_false_2 by congruence.
      by destruct (Comment.is_spam self).
    + intros Hnone. rewrite bool_decide_eq_true_2 by done.
      by destruct (Comment.is_spam self).
Qed.

(** ** BlogEntry: the comment helpers after a save *)

Lemma get_num_comments_size (self : BlogEntry.t) (comments : gmap Z Comment.t) :
  BlogEntry.get_num_comments self comments
  = Z.of_nat
      (size (filter (λ kv, (Some (Comment.comment_for kv.2) = BlogEntry.id self
                            ∧ Comment.is_spam kv.2 = false)
                           ∧ Comment.is_public kv.2 = Some true) comments)).
Proof.
  unfold BlogEntry.get_num_comments, count. by rewrite public_scope_filter.
Qed.

(** X7. Saving a new comment raises the entry's comment count by one
    when the comment is attached to the entry, public and not spam, and
    leaves the count as it is otherwise. *)
Theorem new_comment_count (now : datetime.t) (self : Comment.t)
    (tbl : gmap Z Comment.t) (entry : BlogEntry.t) :
  Comment.id self = None →
  BlogEntry.get_num_comments entry (Comment.save now self tbl).1.2
  = BlogEntry.get_num_comments entry tbl
    + (if decide (Some (Comment.comment_for self) = BlogEntry.id entry
                  ∧ Comment.is_public self = Some true
                  ∧ Comment.is_spam self = false)
       then 1 else 0).
Proof.
  intros Hid. rewrite Comment_save_explicit, Hid. simpl.
  rewrite !get_num_comments_size, size_filter_insert.
  rewrite delete_id by apply fresh_pk_lookup.
  rewrite Nat2Z.inj_add. f_equal.
  assert (∀ P Q : Prop, ∀ (HP : Decision P) (HQ : Decision Q), (P ↔ Q) →
            Z.of_nat (if decide P then 1 else 0) = if decide Q then 1 else 0)
    as Hext.
  { intros P Q HP HQ HPQ. destruct (decide P), (decide Q); tauto. }
  apply Hext. destruct (Comment.is_spam self) eqn:Hspam; simpl;
    rewrite ?Hspam; intuition congruence.
Qed.

Lemma new_comment_count_witness :
  BlogEntry.get_num_comments Sample.entry7
    (Comment.save (Sample.jan1 + 3 * Sample.hour)
       (Sample.new_comment "third" false (Some true))
       Sample.comments_two_public).1.2
  = BlogEntry.get_num_comments Sample.entry7 Sample.comments_two_public
    + (if decide (Some (Comment.comment_for
                          (Sample.new_comment "third" false (Some true)))
                  = BlogEntry.id Sample.entry7
                  ∧ Comment.is_public
                      (Sample.new_comment "third" false (Some true))
                    = Some true
                  ∧ Comment.is_spam
                      (Sample.new_comment "third" false (Some true))
                    = false)
       then 1 else 0).
Proof.
  apply (new_comment_count (Sample.jan1 + 3 * Sample.hour)
           (Sample.new_comment "third" false (Some true))
           Sample.comments_two_public Sample.entry7).
  reflexivity.
Defined.

(** X8. Flagging a counted comment as spam and saving it takes it out of
    the count: when the stored row of a key is a public, non-spam comment
    of the entry, saving a comment with that key and [is_spam] true
    lowers the entry's comment count by one. *)
Theorem spam_flag_lowers_count (now : datetime.t) (self stored : Comment.t)
    (tbl : gmap Z Comment.t) (entry : BlogEntry.t) (k : Z) :
  tbl !! k = Some stored →
  public_nonspam_for entry (k, stored) →
  Comment.id self = Some k → Comment.is_spam self = true →
  BlogEntry.get_num_comments entry (Comment.save now self tbl).1.2
  = BlogEntry.get_num_comments entry tbl - 1.
Proof.
  intros Hk (Hfor & Hpub & Hspam) Hid Hself.
  rewrite Comment_save_explicit, Hid, Hself. simpl.
  rewrite bool_decide_eq_false_2 by congruence.
  rewrite !get_num_comments_size, size_filter_insert.
  rewrite (size_filter_stored _ tbl k stored Hk).
  rewrite decide_False by (simpl; intros (_ & ?); done).
  rewrite decide_True by done. lia.
Qed.

Lemma spam_flag_lowers_count_witness :
  BlogEntry.get_num_comments Sample.entry7
    (Comment.save (Sample.jan1 + 3 * Sample.hour)
       (Cases.flag_spam Cases.stored_earlier) Sample.comments_two_public).1.2
  = BlogEntry.get_num_comments Sample.entry7 Sample.comments_two_public - 1.
Proof.
  apply (spam_flag_lowers_count (Sample.jan1 + 3 * Sample.hour)
           (Cases.flag_spam Cases.stored_earlier) Cases.stored_earlier
           Sample.comments_two_public Sample.entry7 1).
  - reflexivity.
  - repeat split; reflexivity.
  - reflexivity.
  - reflexivity.
Defined.

(** ** BlogEntry: recent comments *)

Lemma recent_comments_qs_lookup (now : datetime.t) (entry : BlogEntry.t)
    (comments : gmap Z Comment.t) (k : Z) (c : Comment.t) :
  BlogEntry.recent_comments_qs now entry comments !! k = Some c
  ↔ comments !! k = Some c ∧ public_nonspam_recent_for now entry (k, c).
Proof.
  unfold BlogEntry.recent_comments_qs, Comment.objects.
  rewrite !map_lookup_filter_Some.
  unfold public_nonspam_recent_for, public_nonspam_for. simpl. tauto.
Qed.

Lemma recent_comments_elem (now : datetime.t) (entry : BlogEntry.t)
    (comments : gmap Z Comment.t) (c : Comment.t) :
  c ∈ BlogEntry.get_recent_comments now entry comments
  ↔ ∃ k, comments !! k = Some c ∧ public_nonspam_recent_for now entry (k, c).
Proof.
  unfold BlogEntry.get_recent_comments.
  rewrite merge_sort_Permutation, list_elem_of_fmap. split.
  - intros ([k c'] & -> & Hkc). exists k.
    by apply recent_comments_qs_lookup, elem_of_map_to_list.
  - intros (k & Hk & Hc). exists (k, c). split; [done|].
    by apply elem_of_map_to_list, recent_comments_qs_lookup.
Qed.

Lemma recent_comments_length (now : datetime.t) (entry : BlogEntry.t)
    (comments : gmap Z Comment.t) :
  length (BlogEntry.get_recent_comments now entry comments)
  = size (BlogEntry.recent_comments_qs now entry comments).
Proof.
  unfold BlogEntry.get_recent_comments.
  by rewrite merge_sort_Permutation, length_fmap, length_map_to_list.
Qed.

(** X9. [has_recent_comments] and [get_recent_comments] agree: the first
    is true exactly when the second lists a comment, which is exactly
    when the entry has a public, non-spam comment created later than 24
    hours before the query time. *)
Theorem has_recent_comments_iff (now : datetime.t) (entry : BlogEntry.t)
    (comments : gmap Z Comment.t) :
  (BlogEntry.has_recent_comments now entry comments = true
   ↔ BlogEntry.get_recent_comments now entry comments ≠ [])
  ∧ (BlogEntry.has_recent_comments now entry comments = true
     ↔ ∃ k c, comments !! k = Some c
              ∧ Some (Comment.comment_for c) = BlogEntry.id entry
              ∧ Comment.is_public c = Some true
              ∧ Comment.is_spam c = false
              ∧ now - datetime.timedelta_days 1 < Comment.created_on c).
Proof.
  unfold BlogEntry.has_recent_comments. split.
  - unfold nonempty. rewrite negb_true_iff, bool_decide_eq_false.
    rewrite <-recent_comments_length.
    by destruct (BlogEntry.get_recent_comments now entry comments).
  - rewrite nonempty_true. setoid_rewrite recent_comments_qs_lookup.
    unfold public_nonspam_recent_for, public_nonspam_for. simpl. split.
    + intros (k & c & Hk & (Hfor & Hpub & Hspam) & Hrecent). by exists k, c.
    + intros (k & c & Hk & Hfor & Hpub & Hspam & Hrecent). by exists k, c.
Qed.

(** X10. The recent listing is never longer than the comment count:
    every comment [get_recent_comments] lists is one [get_num_comments]
    counts. *)
Theorem recent_comments_are_counted (now : datetime.t) (entry : BlogEntry.t)
    (comments : gmap Z Comment.t) :
  Z.of_nat (length (BlogEntry.get_recent_comments now entry comments))
  ≤ BlogEntry.get_num_comments entry comments.
Proof.
  rewrite recent_comments_length. unfold BlogEntry.get_num_comments, count.
  apply inj_le, map_subseteq_size.
  unfold BlogEntry.recent_comments_qs.
  apply map_filter_subseteq_ext. intros k c _. simpl. tauto.
Qed.

(** X11. A new comment that is public and not spam is recent as soon as
    it is saved: at the time of the save the entry has recent comments
    and the stored comment is in the listing. *)
Theorem new_public_comment_is_recent (now : datetime.t) (self : Comment.t)
    (tbl : gmap Z Comment.t) (entry : BlogEntry.t) :
  Comment.id self = None →
  Some (Comment.comment_for self) = BlogEntry.id entry →
  Comment.is_spam self = false → Comment.is_public self = Some true →
  BlogEntry.has_recent_comments now entry (Comment.save now self tbl).1.2 = true
  ∧ (Comment.save now self tbl).1.1
    ∈ BlogEntry.get_recent_comments now entry (Comment.save now self tbl).1.2.
Proof.
  intros Hid Hfor Hspam Hpub.
  rewrite Comment_save_explicit, Hid, Hspam. simpl.
  set (k := fresh_pk tbl).
  set (self' := Comment.set_id (Some k) (Comment.set_created_on now self)).
  assert (<[k := self']> tbl !! k = Some self'
          ∧ public_nonspam_recent_for now entry (k, self')) as Hrow.
  { split; [apply lookup_insert_eq|]. repeat split; try done.
    simpl. unfold datetime.timedelta_days, datetime.us_per_day. lia. }
  split.
  - apply nonempty_true. exists k, self'.
    by apply recent_comments_qs_lookup.
  - apply recent_comments_elem. by exists k.
Qed.

Lemma new_public_comment_is_recent_witness :
  BlogEntry.has_recent_comments Sample.jan1 Sample.entry7
    (Comment.save Sample.jan1 (Sample.new_comment "hi" false (Some true)) ∅).1.2
  = true
  ∧ (Comment.save Sample.jan1 (Sample.new_comment "hi" false (Some true)) ∅).1.1
    ∈ BlogEntry.get_recent_comments Sample.jan1 Sample.entry7
        (Comment.save Sample.jan1
           (Sample.new_comment "hi" false (Some true)) ∅).1.2.
Proof.
  apply (new_public_comment_is_recent Sample.jan1
           (Sample.new_comment "hi" false (Some true)) ∅ Sample.entry7);
    reflexivity.
Defined.

(** X12. The recent listing only loses comments as time passes: a
    comment listed at a later query time is listed at every earlier one,
    and a comment is no longer listed once 24 hours have passed since its
    [created_on]. *)
Theorem recent_comments_expire (now now' : datetime.t) (entry : BlogEntry.t)
    (comments : gmap Z Comment.t) (c : Comment.t) :
  c ∈ BlogEntry.get_recent_comments now' entry comments →
  now' < Comment.created_on c + datetime.timedelta_days 1
  ∧ (now ≤ now' → c ∈ BlogEntry.get_recent_comments now entry comments).
Proof.
  intros (k & Hk & Hc & Hrecent)%recent_comments_elem. simpl in Hrecent.
  split; [lia|]. intros Hle. apply recent_comments_elem. exists k.
  split; [done|]. split; [done|]. simpl. lia.
Qed.

Lemma recent_comments_expire_witness :
  Sample.jan1 + 4 * Sample.hour
  < Comment.created_on Cases.stored_earlier + datetime.timedelta_days 1
  ∧ (Sample.jan1 + 2 * Sample.hour ≤ Sample.jan1 + 4 * Sample.hour →
     Cases.stored_earlier
     ∈ BlogEntry.get_recent_comments (Sample.jan1 + 2 * Sample.hour)
         Sample.entry7 Sample.comments_three).
Proof.
  apply (recent_comments_expire (Sample.jan1 + 2 * Sample.hour)
           (Sample.jan1 + 4 * Sample.hour) Sample.entry7
           Sample.comments_three Cases.stored_earlier).
  vm_compute. right. left.
Defined.

(** ** BlogEntry: reactions *)

(** X13. [get_num_reactions] counts every reaction attached to the
    entry, whatever its source: a reaction stored under an identifier no
    row had raises the count by one when it is attached to the entry and
    leaves it as it is when it is attached to another. *)
Theorem new_reaction_count (entry : BlogEntry.t)
    (reactions : gmap string Reaction.t) (r : Reaction.t) :
  reactions !! Reaction.reaction_id r = None →
  BlogEntry.get_num_reactions entry (<[Reaction.reaction_id r := r]> reactions)
  = BlogEntry.get_num_reactions entry reactions
    + (if decide (Some (Reaction.comment_for r) = BlogEntry.id entry)
       then 1 else 0).
Proof.
  intros Hnew. unfold BlogEntry.get_num_reactions.
  rewrite size_filter_insert, delete_id by done.
  rewrite Nat2Z.inj_add. simpl. by case_decide.
Qed.

Lemma new_reaction_count_witness :
  BlogEntry.get_num_reactions Sample.entry7
    (<[Reaction.reaction_id Cases.reaction := Cases.reaction]> ∅)
  = BlogEntry.get_num_reactions Sample.entry7 ∅
    + (if decide (Some (Reaction.comment_for Cases.reaction)
                  = BlogEntry.id Sample.entry7)
       then 1 else 0).
Proof.
  apply (new_reaction_count Sample.entry7 ∅ Cases.reaction). reflexivity.
Defined.

(** ** BlogEntry: every field [save] leaves *)

Section entry_fields.
Context (slugify : string → string).

Lemma publish_fixup_explicit (self : BlogEntry.t) :
  BlogEntry.publish_fixup self
  = (BlogEntry.set_created_on (created_on_after self) self,
     if BlogEntry.is_published self
        && bool_decide (BlogEntry.created_on self = None)
     then Some AttributeError else None).
Proof.
  unfold BlogEntry.publish_fixup, created_on_after.
  destruct self as [? ? ? ? ? [d|] ? ? [] ? ? ? ? ?]; simpl; try done.
  by destruct (datetime.year d =? 9999).
Qed.

Lemma pipeline_derived (self : BlogEntry.t) (c : string) :
  let self' :=
    BlogEntry.set_created_on (created_on_after self)
      (BlogEntry.default_summary_and_meta
         (BlogEntry.set_slug (Some c)
            (BlogEntry.infer_title_and_slug slugify self))) in
  derived_from self c self' ∧ BlogEntry.id self' = BlogEntry.id self.
Proof.
  unfold derived_from, BlogEntry.default_summary_and_meta,
    BlogEntry.infer_title_and_slug, title_or_inferred, summary_or_generated,
    meta_or_summary, summary_or_generated.
  destruct self as [pk [t|] [s|] txt [sm|] co cb pg pub pd ca rte [mk|] [md|]];
    simpl; repeat (case_bool_decide; simpl); repeat split; congruence.
Qed.

(** The whole of [save]: the index the loop stops at, bounded by the size
    of the published scope, every field of the instance, and the table. *)
Lemma save_full (now : datetime.t) (self : BlogEntry.t)
    (tbl : gmap Z BlogEntry.t) :
  ∃ self' tbl' i,
    BlogEntry.save slugify now self tbl = Some (self', tbl', save_outcome self)
    ∧ 1 ≤ i ≤ 1 + Z.of_nat (size (BlogEntry.objects now tbl))
    ∧ ¬ slug_in_use now tbl (BlogEntry.id self)
          (BlogEntry.create_slug (starting_slug slugify self) i)
    ∧ (∀ j, 1 ≤ j < i →
         slug_in_use now tbl (BlogEntry.id self)
           (BlogEntry.create_slug (starting_slug slugify self) j))
    ∧ derived_from self
        (BlogEntry.create_slug (starting_slug slugify self) i) self'
    ∧ match save_outcome self with
      | Saved =>
          let k := from_option id (fresh_pk tbl) (BlogEntry.id self) in
          BlogEntry.id self' = Some k ∧ tbl' = <[k := self']> tbl
      | Raised _ => BlogEntry.id self' = BlogEntry.id self ∧ tbl' = tbl
      end.
Proof.
  destruct (save_unfold slugify now self tbl)
    as (i & Hi & Hfree & Hbelow & ->).
  set (c := BlogEntry.create_slug (starting_slug slugify self) i) in *.
  assert (i ≤ 1 + Z.of_nat (size (BlogEntry.objects now tbl))) as Hbound.
  { destruct (decide (i ≤ 1 + Z.of_nat (size (BlogEntry.objects now tbl))))
      as [|Hgt]; [done|].
    destruct (candidates_not_all_in_use now tbl (BlogEntry.id self)
                (starting_slug slugify self)).
    intros j Hj. apply Hbelow. lia. }
  destruct (infer_title_and_slug_fields slugify self)
    as (_ & _ & _ & _ & _ & Hco0 & Hpub0 & Hpd0).
  destruct (default_summary_and_meta_fields
              (BlogEntry.set_slug (Some c)
                 (BlogEntry.infer_title_and_slug slugify self)))
    as (_ & _ & _ & _ & Hco1 & Hpub1 & Hpd1).
  simpl in Hco1, Hpub1, Hpd1.
  rewrite publish_fixup_explicit.
  rewrite (created_on_after_ext self) by congruence.
  rewrite Hpub1, Hpub0, Hco1, Hco0.
  destruct (pipeline_derived self c) as [Hderived Hid].
  set (self2 := BlogEntry.set_created_on _ _) in *.
  unfold save_outcome.
  destruct (BlogEntry.is_published self
            && bool_decide (BlogEntry.created_on self = None)) eqn:Hattr.
  - exists self2, tbl, i.
    split; [done|]. split; [lia|]. split; [done|]. split; [done|].
    split; [exact Hderived|]. by split.
  - pose proof Hderived as (Ht & Hs & _ & Hsum & Hco & _).
    rewrite Model_save_entry by (rewrite ?Ht, ?Hs, ?Hsum; eauto).
    rewrite Hco. destruct (created_on_after self) as [d|] eqn:Hd.
    + rewrite bool_decide_eq_false_2 by done.
      eexists _, _, i. split; [reflexivity|].
      split; [lia|]. split; [done|]. split; [done|].
      split; [apply Hderived|]. cbv zeta. by rewrite <-Hid.
    + rewrite bool_decide_eq_true_2 by done.
      exists self2, tbl, i.
      split; [done|]. split; [lia|]. split; [done|]. split; [done|].
      split; [exact Hderived|]. by split.
Qed.
End entry_fields.

(** ** BlogEntry: the published scope *)

(** X14. The published scope holds exactly the rows with [is_published]
    true and a [publish_date] that is set and not later than the query
    time, and it only grows as time passes: a row in the scope stays in
    it at every later time. *)
Theorem published_scope_grows_with_time (now now' : datetime.t)
    (tbl : gmap Z BlogEntry.t) :
  (∀ k e, BlogEntry.objects now tbl !! k = Some e
          ↔ tbl !! k = Some e ∧ BlogEntry.is_published e = true
            ∧ ∃ d, BlogEntry.publish_date e = Some d ∧ d ≤ now)
  ∧ (now ≤ now' → BlogEntry.objects now tbl ⊆ BlogEntry.objects now' tbl).
Proof.
  assert (∀ t e, BlogEntry.in_published_scope t e = true
                 ↔ BlogEntry.is_published e = true
                   ∧ ∃ d, BlogEntry.publish_date e = Some d ∧ d ≤ t) as Hscope.
  { intros t e. unfold BlogEntry.in_published_scope.
    rewrite andb_true_iff. destruct (BlogEntry.publish_date e) as [d|].
    - rewrite Z.leb_le. split.
      + intros [? ?]. split; [done|]. by exists d.
      + intros [? (d' & [= <-] & ?)]. done.
    - split; [by intros [_ ?]|]. by intros [_ (d & ? & _)]. }
  split.
  - intros k e. unfold BlogEntry.objects.
    rewrite map_lookup_filter_Some. simpl. by rewrite Hscope.
  - intros Hle. unfold BlogEntry.objects.
    apply map_filter_subseteq_ext. intros k e _. simpl.
    rewrite !Hscope. intros [Hpub (d & Hd & Hdle)].
    split; [done|]. exists d. split; [done|lia].
Qed.

(** ** BlogEntry: more about [save] *)

(** X15. A save fills a blank summary with the first 100
    whitespace-separated tokens of the raw text joined by single spaces,
    and fills a blank [meta_keywords] or [meta_description] with the
    summary the entry is saved with; a summary or meta field that is not
    blank is kept as supplied. *)
Theorem save_defaults_summary_and_meta (slugify : string → string)
    (now : datetime.t) (self : BlogEntry.t) (tbl : gmap Z BlogEntry.t) :
  ∃ self' tbl' r,
    BlogEntry.save slugify now self tbl = Some (self', tbl', r)
    ∧ (blank (BlogEntry.summary self) = true →
       BlogEntry.summary self'
       = Some (join " " (take 100 (split (BlogEntry.raw (BlogEntry.text self))))))
    ∧ (blank (BlogEntry.summary self) = false →
       BlogEntry.summary self' = BlogEntry.summary self)
    ∧ BlogEntry.meta_keywords self'
      = (if blank (BlogEntry.meta_keywords self) then BlogEntry.summary self'
         else BlogEntry.meta_keywords self)
    ∧ BlogEntry.meta_description self'
      = (if blank (BlogEntry.meta_description self) then BlogEntry.summary self'
         else BlogEntry.meta_description self).
Proof.
  destruct (save_full slugify now self tbl)
    as (self' & tbl' & i & Hsave & _ & _ & _ & Hd & _).
  destruct Hd as (_ & _ & _ & Hsum & _ & _ & _ & _ & _ & _ & _ & Hmk & Hmd).
  exists self', tbl', (save_outcome self). split; [done|].
  rewrite Hmk, Hmd, Hsum. unfold meta_or_summary, summary_or_generated.
  repeat split.
  - destruct (BlogEntry.summary self) as [s|]; simpl; [|done].
    by intros ->.
  - intros (s & -> & Hs)%blank_Some_false. by rewrite bool_decide_eq_false_2.
Qed.

(** X16. A title that is not blank is stored as supplied, and a blank
    slug is derived from the title the entry is saved with: when no other
    entry of the published scope carries the slugified title, it is the
    slug. *)
Theorem save_derives_slug_from_title (slugify : string → string)
    (now : datetime.t) (self : BlogEntry.t) (tbl : gmap Z BlogEntry.t) :
  ∃ self' tbl' r t,
    BlogEntry.save slugify now self tbl = Some (self', tbl', r)
    ∧ BlogEntry.title self' = Some t
    ∧ (blank (BlogEntry.title self) = false →
       BlogEntry.title self' = BlogEntry.title self)
    ∧ (blank (BlogEntry.slug self) = true →
       ¬ slug_in_use now tbl (BlogEntry.id self) (slugify t) →
       BlogEntry.slug self' = Some (slugify t)).
Proof.
  destruct (save_full slugify now self tbl)
    as (self' & tbl' & i & Hsave & Hi & _ & Hbelow & Hd & _).
  destruct Hd as (Ht & Hs & _).
  exists self', tbl', (save_outcome self), (title_or_inferred self).
  split; [done|]. split; [done|]. split.
  - intros (t & Htitle & Hne)%blank_Some_false. rewrite Ht, Htitle.
    unfold title_or_inferred. by rewrite Htitle, bool_decide_eq_false_2.
  - intros Hblank Hfree.
    assert (starting_slug slugify self = slugify (title_or_inferred self))
      as Hbase.
    { unfold starting_slug. destruct (BlogEntry.slug self) as [s|]; [|done].
      simpl in Hblank. by rewrite Hblank. }
    rewrite Hbase in *.
    destruct (decide (i = 1)) as [->|Hne]; [done|].
    destruct Hfree. apply (Hbelow 1). lia.
Qed.

(** X17. The first variant is the suffix "-2": an entry saved with a
    slug that another entry of the published scope carries, while none
    carries that slug followed by "-2", is stored with the slug followed
    by "-2". *)
Theorem save_second_slug (slugify : string → string) (now : datetime.t)
    (self : BlogEntry.t) (tbl : gmap Z BlogEntry.t) (s : string) :
  BlogEntry.slug self = Some s → s ≠ "" →
  slug_in_use now tbl (BlogEntry.id self) s →
  ¬ slug_in_use now tbl (BlogEntry.id self) (s +:+ "-2") →
  ∃ self' tbl' r,
    BlogEntry.save slugify now self tbl = Some (self', tbl', r)
    ∧ BlogEntry.slug self' = Some (s +:+ "-2").
Proof.
  intros Hs Hne Hused Hfree2.
  destruct (save_full slugify now self tbl)
    as (self' & tbl' & i & Hsave & Hi & Hfree & Hbelow & Hd & _).
  destruct Hd as (_ & Hslug & _).
  assert (starting_slug slugify self = s) as Hbase.
  { unfold starting_slug. rewrite Hs. by rewrite bool_decide_eq_false_2. }
  rewrite Hbase in *.
  assert (BlogEntry.create_slug s 2 = s +:+ "-2") as H2 by done.
  exists self', tbl', (save_outcome self). split; [done|].
  destruct (decide (i = 1)) as [->|Hne1]; [by destruct Hfree|].
  destruct (decide (i = 2)) as [->|Hne2]; [by rewrite Hslug, H2|].
  destruct Hfree2. rewrite <-H2. apply Hbelow. lia.
Qed.

Lemma save_second_slug_witness :
  ∃ self' tbl' r,
    BlogEntry.save Sample.slugify (Sample.jan1 + 2 * Sample.hour) Sample.post
      Sample.entries_both = Some (self', tbl', r)
    ∧ BlogEntry.slug self' = Some ("hello-world" +:+ "-2").
Proof.
  apply (save_second_slug Sample.slugify (Sample.jan1 + 2 * Sample.hour)
           Sample.post Sample.entries_both "hello-world");
    [reflexivity | discriminate | |].
  - exists 2, Sample.stored_post. repeat split; try reflexivity. discriminate.
  - intros (k & e & Hk & _ & _ & Hslug).
    destruct (decide (k = 2)) as [->|];
      [vm_compute in Hk; injection Hk as <-; discriminate Hslug|].
    destruct (decide (k = 1)) as [->|];
      [vm_compute in Hk; injection Hk as <-; discriminate Hslug|].
    unfold Sample.entries_both, Sample.entries_draft in Hk.
    rewrite lookup_insert_ne, lookup_singleton_ne in Hk by done. discriminate.
Defined.

(** X18. A save leaves [created_on] alone unless the entry is published
    with a [created_on] in the year 9999: an unpublished entry keeps its
    [created_on], the sentinel included, and so does an entry whose
    [created_on] lies in another year. *)
Theorem save_keeps_created_on (slugify : string → string) (now : datetime.t)
    (self : BlogEntry.t) (tbl : gmap Z BlogEntry.t) :
  BlogEntry.is_published self = false
  ∨ (∃ d, BlogEntry.created_on self = Some d ∧ datetime.year d ≠ 9999) →
  ∃ self' tbl' r,
    BlogEntry.save slugify now self tbl = Some (self', tbl', r)
    ∧ BlogEntry.created_on self' = BlogEntry.created_on self.
Proof.
  intros Hcase.
  destruct (save_full slugify now self tbl)
    as (self' & tbl' & i & Hsave & _ & _ & _ & Hd & _).
  destruct Hd as (_ & _ & _ & _ & Hco & _).
  exists self', tbl', (save_outcome self). split; [done|].
  rewrite Hco. unfold created_on_after.
  destruct Hcase as [->|(d & -> & Hyear)]; [done|].
  destruct (BlogEntry.is_published self); [|done].
  by rewrite (proj2 (Z.eqb_neq _ _) Hyear).
Qed.

Lemma save_keeps_created_on_witness :
  ∃ self' tbl' r,
    BlogEntry.save Sample.slugify Sample.jan1 Sample.draft ∅
    = Some (self', tbl', r)
    ∧ BlogEntry.created_on self' = BlogEntry.created_on Sample.draft.
Proof.
  apply (save_keeps_created_on Sample.slugify Sample.jan1 Sample.draft ∅).
  left. reflexivity.
Defined.

(** X19. A published entry whose [created_on] is [None] cannot be
    saved: reading [.year] raises [AttributeError] before anything is
    written, the table and the identity stay as they were, and the
    instance keeps the title, slug and summary the earlier lines gave
    it. *)
Theorem save_published_without_created_on (slugify : string → string)
    (now : datetime.t) (self : BlogEntry.t) (tbl : gmap Z BlogEntry.t) :
  BlogEntry.is_published self = true → BlogEntry.created_on self = None →
  ∃ self',
    BlogEntry.save slugify now self tbl = Some (self', tbl, Raised AttributeError)
    ∧ BlogEntry.id self' = BlogEntry.id self
    ∧ BlogEntry.created_on self' = None
    ∧ BlogEntry.title self' = Some (title_or_inferred self)
    ∧ is_Some (BlogEntry.slug self')
    ∧ BlogEntry.summary self' = Some (summary_or_generated self).
Proof.
  intros Hpub Hco.
  destruct (save_full slugify now self tbl)
    as (self' & tbl' & i & Hsave & _ & _ & _ & Hd & Hend).
  destruct Hd as (Ht & Hs & _ & Hsum & Hco' & _).
  assert (save_outcome self = Raised AttributeError) as Hr.
  { unfold save_outcome. by rewrite Hpub, Hco. }
  rewrite Hr in Hsave, Hend. destruct Hend as [Hid ->].
  exists self'. split; [done|]. split; [done|]. split.
  - rewrite Hco'. unfold created_on_after. by rewrite Hpub, Hco.
  - split; [done|]. split; [by rewrite Hs|done].
Qed.

Lemma save_published_without_created_on_witness :
  ∃ self',
    BlogEntry.save Sample.slugify Sample.jan1 Cases.unset_created_on
      Sample.entries_both
    = Some (self', Sample.entries_both, Raised AttributeError)
    ∧ BlogEntry.id self' = BlogEntry.id Cases.unset_created_on
    ∧ BlogEntry.created_on self' = None
    ∧ BlogEntry.title self' = Some (title_or_inferred Cases.unset_created_on)
    ∧ is_Some (BlogEntry.slug self')
    ∧ BlogEntry.summary self'
      = Some (summary_or_generated Cases.unset_created_on).
Proof.
  apply (save_published_without_created_on Sample.slugify Sample.jan1
           Cases.unset_created_on Sample.entries_both); reflexivity.
Defined.



(** X21. A save that ends normally writes one row and no other: an
    entry without identity is inserted under a key no row had and the
    table grows by one row; an entry with an identity replaces the row of
    that identity, and the size of the table is unchanged when that row
    existed; every other row is what it was. *)
Theorem save_writes_one_row (slugify : string → string) (now : datetime.t)
    (self self' : BlogEntry.t) (tbl tbl' : gmap Z BlogEntry.t) :
  BlogEntry.save slugify now self tbl = Some (self', tbl', Saved) →
  ∃ k, BlogEntry.id self' = Some k
    ∧ tbl' !! k = Some self'
    ∧ (∀ k', k' ≠ k → tbl' !! k' = tbl !! k')
    ∧ (BlogEntry.id self = None →
       tbl !! k = None ∧ size tbl' = S (size tbl))
    ∧ (∀ k0, BlogEntry.id self = Some k0 →
       k = k0 ∧ (is_Some (tbl !! k0) → size tbl' = size tbl)).
Proof.
  intros Hsave.
  destruct (save_full slugify now self tbl)
    as (self1 & tbl1 & i & Hsave1 & _ & _ & _ & _ & Hend).
  rewrite Hsave in Hsave1. injection Hsave1 as <- <- Hr.
  rewrite <-Hr in Hend. destruct Hend as [Hid ->].
  eexists. split; [exact Hid|]. split; [apply lookup_insert_eq|].
  split; [intros k' Hk'; by apply lookup_insert_ne|]. split.
  - intros Hnone. rewrite Hnone. simpl.
    split; [apply fresh_pk_lookup|].
    apply map_size_insert_None, fresh_pk_lookup.
  - intros k0 Hk0. rewrite Hk0. simpl. split; [done|].
    intros Hsome. by apply map_size_insert_Some.
Qed.

Lemma save_writes_one_row_witness :
  ∃ k, BlogEntry.id Sample.stored_post = Some k
    ∧ Sample.entries_both !! k = Some Sample.stored_post
    ∧ (∀ k', k' ≠ k → Sample.entries_both !! k' = Sample.entries_draft !! k')
    ∧ (BlogEntry.id Sample.post = None →
       Sample.entries_draft !! k = None
       ∧ size Sample.entries_both = S (size Sample.entries_draft))
    ∧ (∀ k0, BlogEntry.id Sample.post = Some k0 →
       k = k0 ∧ (is_Some (Sample.entries_draft !! k0) →
                 size Sample.entries_both = size Sample.entries_draft)).
Proof.
  apply (save_writes_one_row Sample.slugify (Sample.jan1 + Sample.hour)
           Sample.post Sample.stored_post Sample.entries_draft
           Sample.entries_both).
  vm_compute. reflexivity.
Defined.

(** X22. The loop of [save] stops within as many steps as the published
    scope has rows, and one more: the number of the stored variant is at
    most one above the size of the scope. With an empty scope the
    starting slug itself is stored. *)
Theorem save_probe_bounded (slugify : string → string) (now : datetime.t)
    (self : BlogEntry.t) (tbl : gmap Z BlogEntry.t) :
  ∃ self' tbl' r i,
    BlogEntry.save slugify now self tbl = Some (self', tbl', r)
    ∧ BlogEntry.slug self'
      = Some (BlogEntry.create_slug (starting_slug slugify self) i)
    ∧ 1 ≤ i ≤ 1 + Z.of_nat (size (BlogEntry.objects now tbl))
    ∧ (BlogEntry.objects now tbl = ∅ →
       BlogEntry.slug self' = Some (starting_slug slugify self)).
Proof.
  destruct (save_full slugify now self tbl)
    as (self' & tbl' & i & Hsave & Hi & _ & _ & Hd & _).
  destruct Hd as (_ & Hslug & _).
  exists self', tbl', (save_outcome self), i.
  split; [done|]. split; [done|]. split; [done|].
  intros Hempty. rewrite Hempty, map_size_empty in Hi.
  assert (i = 1) as -> by lia. done.
Qed.

(** X23. The candidates of the probe never repeat: [create_slug] returns
    the slug itself for 1, and for every other number a string that
    differs from the slug and from the candidate of every other
    number. *)
Theorem create_slug_candidates_distinct (initial_slug : string) :
  BlogEntry.create_slug initial_slug 1 = initial_slug
  ∧ (∀ i, i ≠ 1 → BlogEntry.create_slug initial_slug i ≠ initial_slug)
  ∧ (∀ i j, BlogEntry.create_slug initial_slug i
            = BlogEntry.create_slug initial_slug j → i = j).
Proof.
  split; [done|]. split.
  - intros i Hi Heq. apply Hi.
    apply (inj (BlogEntry.create_slug initial_slug)). by rewrite Heq.
  - intros i j. apply (inj _).
Qed.

(** X24. A save never changes what it does not derive: the text, the
    author, the page, publication, comment and editor flags and the
    publication date of the instance are after the save what they were
    before, whether the save ends normally or raises; so is the identity
    of an entry that had one. *)
Theorem save_keeps_other_fields (slugify : string → string)
    (now : datetime.t) (self : BlogEntry.t) (tbl : gmap Z BlogEntry.t) :
  ∃ self' tbl' r,
    BlogEntry.save slugify now self tbl = Some (self', tbl', r)
    ∧ BlogEntry.text self' = BlogEntry.text self
    ∧ BlogEntry.created_by self' = BlogEntry.created_by self
    ∧ BlogEntry.is_page self' = BlogEntry.is_page self
    ∧ BlogEntry.is_published self' = BlogEntry.is_published self
    ∧ BlogEntry.publish_date self' = BlogEntry.publish_date self
    ∧ BlogEntry.comments_allowed self' = BlogEntry.comments_allowed self
    ∧ BlogEntry.is_rte self' = BlogEntry.is_rte self
    ∧ (is_Some (BlogEntry.id self) → BlogEntry.id self' = BlogEntry.id self).
Proof.
  destruct (save_full slugify now self tbl)
    as (self' & tbl' & i & Hsave & _ & _ & _ & Hd & Hend).
  destruct Hd as (_ & _ & Htext & _ & _ & Hby & Hpage & Hpub & Hpd & Hca
                  & Hrte & _).
  exists self', tbl', (save_outcome self).
  do 8 (split; [done|]).
  intros [k Hk]. destruct (save_outcome self); destruct Hend as [Hid _];
    rewrite Hid, Hk; done.
Qed.

(** ** BlogEntry: saving twice *)

Lemma entry_ext (a b : BlogEntry.t) :
  BlogEntry.id a = BlogEntry.id b →
  BlogEntry.title a = BlogEntry.title b →
  BlogEntry.slug a = BlogEntry.slug b →
  BlogEntry.text a = BlogEntry.text b →
  BlogEntry.summary a = BlogEntry.summary b →
  BlogEntry.created_on a = BlogEntry.created_on b →
  BlogEntry.created_by a = BlogEntry.created_by b →
  BlogEntry.is_page a = BlogEntry.is_page b →
  BlogEntry.is_published a = BlogEntry.is_published b →
  BlogEntry.publish_date a = BlogEntry.publish_date b →
  BlogEntry.comments_allowed a = BlogEntry.comments_allowed b →
  BlogEntry.is_rte a = BlogEntry.is_rte b →
  BlogEntry.meta_keywords a = BlogEntry.meta_keywords b →
  BlogEntry.meta_description a = BlogEntry.meta_description b →
  a = b.
Proof. destruct a, b; simpl; intros; by subst. Qed.

Lemma title_or_inferred_stable (self self' : BlogEntry.t) :
  BlogEntry.title self' = Some (title_or_inferred self) →
  BlogEntry.text self' = BlogEntry.text self →
  title_or_inferred self' = title_or_inferred self.
Proof.
  intros Ht Htext. unfold title_or_inferred at 1. rewrite Ht, Htext.
  case_bool_decide as Hempty; [|done]. rewrite Hempty.
  unfold title_or_inferred in Hempty |- *.
  destruct (BlogEntry.title self) as [t|]; [|done].
  case_bool_decide; congruence.
Qed.

Lemma summary_or_generated_stable (self self' : BlogEntry.t) :
  BlogEntry.summary self' = Some (summary_or_generated self) →
  BlogEntry.text self' = BlogEntry.text self →
  summary_or_generated self' = summary_or_generated self.
Proof.
  intros Hs Htext. unfold summary_or_generated at 1. rewrite Hs, Htext.
  case_bool_decide as Hempty; [|done]. rewrite Hempty.
  unfold summary_or_generated in Hempty |- *.
  destruct (BlogEntry.summary self) as [s|]; [|done].
  case_bool_decide; congruence.
Qed.

Lemma meta_or_summary_stable (self self' : BlogEntry.t) (m : option string) :
  summary_or_generated self' = summary_or_generated self →
  meta_or_summary self' (meta_or_summary self m) = meta_or_summary self m.
Proof.
  intros Hsum. unfold meta_or_summary. rewrite Hsum.
  destruct (blank m) eqn:Hm.
  - simpl. by case_bool_decide as Hempty; [rewrite Hempty|].
  - by rewrite Hm.
Qed.

Lemma created_on_after_stable (self self' : BlogEntry.t) :
  BlogEntry.created_on self' = created_on_after self →
  BlogEntry.is_published self' = BlogEntry.is_published self →
  BlogEntry.publish_date self' = BlogEntry.publish_date self →
  created_on_after self' = created_on_after self.
Proof.
  intros Hco Hpub Hpd. unfold created_on_after at 1.
  rewrite Hco, Hpub, Hpd. unfold created_on_after.
  destruct (BlogEntry.is_published self); [|done].
  destruct (BlogEntry.created_on self) as [d|]; [|done].
  destruct (datetime.year d =? 9999) eqn:Hyear; [|by rewrite Hyear].
  destruct (BlogEntry.publish_date self) as [p|]; [|done].
  by destruct (datetime.year p =? 9999).
Qed.

Lemma create_slug_empty (base : string) (i : Z) :
  BlogEntry.create_slug base i = "" → base = "" ∧ i = 1.
Proof.
  unfold BlogEntry.create_slug. destruct (i =? 1) eqn:Hi; simpl.
  - intros ->. split; [done|]. by apply Z.eqb_eq.
  - intros Heq. apply (f_equal String.length) in Heq.
    rewrite !string_length_app in Heq. simpl in Heq. lia.
Qed.

Lemma starting_slug_stable (slugify : string → string)
    (self self' : BlogEntry.t) (i : Z) :
  BlogEntry.slug self'
  = Some (BlogEntry.create_slug (starting_slug slugify self) i) →
  title_or_inferred self' = title_or_inferred self →
  starting_slug slugify self'
  = BlogEntry.create_slug (starting_slug slugify self) i.
Proof.
  intros Hslug Htitle. unfold starting_slug at 1. rewrite Hslug, Htitle.
  case_bool_decide as Hempty; [|done]. rewrite Hempty.
  apply create_slug_empty in Hempty as [Hbase _].
  unfold starting_slug in Hbase.
  destruct (BlogEntry.slug self) as [s|]; [|done].
  case_bool_decide; congruence.
Qed.

Lemma slug_in_use_after_save (now : datetime.t) (tbl : gmap Z BlogEntry.t)
    (pk : option Z) (self' : BlogEntry.t) (c : string) :
  let k := from_option id (fresh_pk tbl) pk in
  slug_in_use now (<[k := self']> tbl) (Some k) c ↔ slug_in_use now tbl pk c.
Proof.
  intros k. unfold slug_in_use. split.
  - intros (k' & e & Hk' & Hne & Hscope & Hslug).
    assert (k' ≠ k) as Hne' by congruence.
    rewrite lookup_insert_ne in Hk' by done.
    exists k', e. split; [done|]. split; [|done].
    subst k. destruct pk as [k0|]; simpl in *; congruence.
  - intros (k' & e & Hk' & Hne & Hscope & Hslug).
    assert (k' ≠ k) as Hne'.
    { subst k. destruct pk as [k0|]; simpl; [congruence|].
      pose proof (fresh_pk_above tbl k' (mk_is_Some _ _ Hk')). lia. }
    exists k', e. rewrite lookup_insert_ne by done.
    split; [done|]. split; [congruence|done].
Qed.

(** X25. Saving twice in a row changes nothing the second time: when a
    save has stored an entry, saving the instance it returned, at the same
    time and on the table it left, ends normally and returns the same
    instance and the same table. *)
Theorem save_twice (slugify : string → string) (now : datetime.t)
    (self self' : BlogEntry.t) (tbl tbl' : gmap Z BlogEntry.t) :
  BlogEntry.save slugify now self tbl = Some (self', tbl', Saved) →
  BlogEntry.save slugify now self' tbl' = Some (self', tbl', Saved).
Proof.
  intros Hsave.
  destruct (save_full slugify now self tbl)
    as (self1 & tbl1 & i & Hsave1 & _ & Hfree & _ & Hd & Hend).
  rewrite Hsave in Hsave1. injection Hsave1 as <- <- Hr.
  rewrite <-Hr in Hend. destruct Hend as [Hid ->].
  set (k := from_option id (fresh_pk tbl) (BlogEntry.id self)) in *.
  destruct Hd as (Ht & Hs & Htext & Hsum & Hco & Hby & Hpage & Hpub & Hpd
                  & Hca & Hrte & Hmk & Hmd).
  pose proof (title_or_inferred_stable self self' Ht Htext) as Htitle.
  pose proof (summary_or_generated_stable self self' Hsum Htext) as Hsummary.
  pose proof (created_on_after_stable self self' Hco Hpub Hpd) as Hafter.
  pose proof (starting_slug_stable slugify self self' i Hs Htitle) as Hstart.
  assert (save_outcome self' = Saved) as Hr'.
  { unfold save_outcome in Hr |- *. rewrite Hafter, Hco.
    destruct (BlogEntry.is_published self
              && bool_decide (BlogEntry.created_on self = None)); [done|].
    destruct (created_on_after self) as [d|] eqn:Hd.
    - rewrite (bool_decide_eq_false_2 (Some d = None)) by done.
      by rewrite andb_false_r.
    - by rewrite bool_decide_eq_true_2 in Hr. }
  destruct (save_full slugify now self' (<[k := self']> tbl))
    as (self2 & tbl2 & i2 & Hsave2 & Hi2 & _ & Hbelow2 & Hd2 & Hend2).
  rewrite Hr' in Hsave2, Hend2. rewrite Hid in Hend2. simpl in Hend2.
  destruct Hend2 as [Hid2 ->].
  rewrite Hstart in Hd2, Hbelow2.
  assert (i2 = 1) as ->.
  { destruct (decide (i2 = 1)) as [|Hne]; [done|].
    destruct Hfree. apply (slug_in_use_after_save now tbl _ self').
    fold k. rewrite <-Hid. apply (Hbelow2 1). lia. }
  destruct Hd2 as (Ht2 & Hs2 & Htext2 & Hsum2 & Hco2 & Hby2 & Hpage2 & Hpub2
                   & Hpd2 & Hca2 & Hrte2 & Hmk2 & Hmd2).
  assert (self2 = self') as ->.
  { assert (BlogEntry.slug self2 = BlogEntry.slug self') as Hslug
      by (by rewrite Hs2, Hs).
    assert (BlogEntry.meta_keywords self2 = BlogEntry.meta_keywords self')
      as Hkeywords by (rewrite Hmk2, Hmk; by apply meta_or_summary_stable).
    assert (BlogEntry.meta_description self2 = BlogEntry.meta_description self')
      as Hdescription by (rewrite Hmd2, Hmd; by apply meta_or_summary_stable).
    apply entry_ext; congruence. }
  by rewrite Hsave2, insert_insert_eq.
Qed.

Lemma save_twice_witness :
  BlogEntry.save Sample.slugify (Sample.jan1 + Sample.hour) Sample.stored_post
    Sample.entries_both
  = Some (Sample.stored_post, Sample.entries_both, Saved).
Proof.
  apply (save_twice Sample.slugify (Sample.jan1 + Sample.hour) Sample.post
           Sample.stored_post Sample.entries_draft Sample.entries_both).
  vm_compute. reflexivity.
Defined.

(** ** The helpers: tokens, summaries and inferred titles *)

Lemma tokens_words (s : string) (ws : list string) :
  tokens s ws → Forall is_word ws.
Proof. induction 1; by constructor. Qed.

Lemma split_words (s : string) : Forall is_word (split s).
Proof. apply (tokens_words s), split_tokens. Qed.

Lemma split_join_words (ws : list string) :
  Forall is_word ws → split (join " " ws) = ws.
Proof.
  induction 1 as [|w ws Hw Hws IH]; [done|].
  destruct ws as [|w' ws].
  - simpl. rewrite <-(string_app_nil_r w) at 1.
    by apply (split_word "" w "").
  - change (join " " (w :: w' :: ws))
      with (w +:+ " " +:+ join " " (w' :: ws)).
    rewrite <-IH at 2.
    etrans; [apply (split_word "" w (" " +:+ join " " (w' :: ws))); done|].
    done.
Qed.

Lemma all_chars_app (P : ascii → bool) (s1 s2 : string) :
  all_chars P (s1 +:+ s2) = all_chars P s1 && all_chars P s2.
Proof.
  induction s1 as [|c s1 IH]; [done|].
  rewrite string_app_cons. simpl. by rewrite IH, andb_assoc.
Qed.

Lemma join_hyphen_no_space (ws : list string) :
  Forall is_word ws →
  all_chars (λ c, negb (isspace c)) (join "-" ws) = true.
Proof.
  induction 1 as [|w ws [_ Hw] Hws IH]; [done|].
  destruct ws as [|w' ws]; [done|].
  change (join "-" (w :: w' :: ws)) with (w +:+ "-" +:+ join "-" (w' :: ws)).
  by rewrite !all_chars_app, Hw, IH.
Qed.

Lemma join_empty (sep : string) (ws : list string) :
  Forall is_word ws → join sep ws = "" → ws = [].
Proof.
  intros Hws Hjoin. destruct Hws as [|w ws [Hne _] _]; [done|].
  destruct ws as [|w' ws]; [done|].
  change (join sep (w :: w' :: ws))
    with (w +:+ sep +:+ join sep (w' :: ws)) in Hjoin.
  destruct w; [done|]. discriminate Hjoin.
Qed.

Lemma split_nil_gap (s : string) : split s = [] ↔ is_gap s.
Proof.
  split; [|apply split_gap].
  intros Hnil. pose proof (split_tokens s) as Htok. rewrite Hnil in Htok.
  by inversion Htok.
Qed.

(** X26. [split] and [join] round trip: the tokens [split] returns hold
    no whitespace and are not empty, joining such tokens with single
    spaces and splitting again gives the tokens back, and so [split]
    gives the same tokens on a text and on its tokens joined by
    spaces. *)
Theorem split_join_round_trip (s : string) (ws : list string) :
  Forall is_word (split s)
  ∧ (Forall is_word ws → split (join " " ws) = ws)
  ∧ split (join " " (split s)) = split s.
Proof.
  split; [apply split_words|]. split; [apply split_join_words|].
  apply split_join_words, split_words.
Qed.

(** X27. The tokens of the generated summary are the first 100 tokens of
    the text, so the summary holds at most 100 tokens, each separated by
    one space, and generating a summary from a summary returns it
    unchanged. *)
Theorem generate_summary_tokens (text : string) :
  split (_generate_summary text) = take 100 (split text)
  ∧ (length (split (_generate_summary text)) ≤ 100)%nat
  ∧ _generate_summary (_generate_summary text) = _generate_summary text.
Proof.
  assert (split (_generate_summary text) = take 100 (split text)) as Hsplit.
  { unfold _generate_summary. apply split_join_words.
    apply Forall_take, split_words. }
  split; [done|]. split.
  - rewrite Hsplit, length_take. lia.
  - unfold _generate_summary at 1. rewrite Hsplit.
    by rewrite take_take, Nat.min_id.
Qed.

(** X28. An inferred title holds no whitespace; it is empty exactly when
    the text holds no token, that is when the text is empty or all
    whitespace, and otherwise it is one token. *)
Theorem infer_title_no_whitespace (text : string) :
  all_chars (λ c, negb (isspace c)) (_infer_title_or_slug text) = true
  ∧ (_infer_title_or_slug text = "" ↔ is_gap text)
  ∧ (¬ is_gap text →
     split (_infer_title_or_slug text) = [_infer_title_or_slug text]).
Proof.
  assert (Forall is_word (take 5 (split text))) as Hwords.
  { apply Forall_take, split_words. }
  assert (_infer_title_or_slug text = "" ↔ is_gap text) as Hempty.
  { unfold _infer_title_or_slug. rewrite <-split_nil_gap. split.
    - intros Hjoin%join_empty; [|done].
      destruct (split text); [done|discriminate Hjoin].
    - by intros ->. }
  split; [by apply join_hyphen_no_space|]. split; [done|].
  intros Hgap.
  rewrite <-(string_app_nil_r (_infer_title_or_slug text)) at 1.
  apply (split_word "" (_infer_title_or_slug text) ""); try done.
  split; [by rewrite Hempty|]. by apply join_hyphen_no_space.
Qed.

Lemma infer_title_no_whitespace_witness :
  all_chars (λ c, negb (isspace c))
    (_infer_title_or_slug "one two three four five six seven") = true
  ∧ (_infer_title_or_slug "one two three four five six seven" = ""
     ↔ is_gap "one two three four five six seven")
  ∧ split (_infer_title_or_slug "one two three four five six seven")
    = [_infer_title_or_slug "one two three four five six seven"].
Proof.
  destruct (infer_title_no_whitespace "one two three four five six seven")
    as (Hno & Hempty & Hone).
  split; [exact Hno|]. split; [exact Hempty|].
  apply Hone. intros Hgap. discriminate Hgap.
Defined.
